(** * Asguard risk engine: rule scorer, AI gate and advisory client

    A shallow embedding of [services.CalculateRisk] (risk_engine.go),
    [services.AnalyzeTransaction] (ai_service.go) and [main] (main.go),
    followed by the properties of the scoring and escalation policy.

    main.go and risk_engine.go come in two revisions; the embedding
    follows the current one of each (weights 35/20/15/15/15, gate at 40,
    the Groq client) and keeps the earlier [main] beside it.  The HTTP
    layer ([routes.AnalyzeTransaction], [routes.RegisterRoutes],
    [middleware.APIKeyAuth]) and the first revision of the engine with
    its placeholder client (module [Legacy]) follow the client.

    Go's [float64] is modelled by Rocq's primitive binary64 floats, whose
    operations are the IEEE-754 round-to-nearest-even ones; every
    operation is rounded on its own, which is what the Go compiler emits
    for amd64.  Where a target fuses a product with the addition that
    follows it, the products with a factor 0.0 or 1.0 stay exact, so the
    scores of the records without an amount tier are the same there.
    Go's [int] only ever holds values between 0 and 100 here and is
    modelled by [Z]. *)

From Stdlib Require Import ZArith QArith Qround Bool List Ascii String Lia.
From Stdlib Require Import Floats.PrimFloat Floats.SpecFloat Floats.FloatOps.
From stdpp Require Import base option strings gmap.
Import ListNotations.

#[local] Set Warnings "-inexact-float".
Local Open Scope string_scope.
Local Open Scope Z_scope.

(** Go's [append(s, x)] on a slice that is not shared. *)
Definition append {A : Type} (s : list A) (x : A) : list A := (s ++ [x])%list.

(** ** Numeric conversions *)

Module Float64.

(** Go's conversion [int(f)] of a finite float: the fractional part is
    discarded (truncation towards zero).  A finite float is
    [m * 2^e] with its sign; shifting [m] by a negative [e] drops the
    fraction.  The conversion of NaN and of the infinities is
    implementation-specific in Go; the engine never converts one. *)
Definition int (f : float) : Z :=
  match Prim2SF f with
  | S754_finite s m e =>
      let magnitude := Z.shiftl (Z.pos m) e in
      if s then - magnitude else magnitude
  | _ => 0
  end.

End Float64.

(** ** Data model (risk_engine.go, ai_service.go) *)

Record TransactionData := {
  UserID : string;
  TransactionID : string;
  Amount : float;
  Currency : string;
  IPAddress : string;
  DeviceID : string;
  Location : string
}.

Record AIResult := {
  FraudProbability : float;
  RecommendedAction : string;
  Reasoning : string;
  Confidence : float
}.

(** The zero value [AIResult{}]. *)
Definition AIResult_zero : AIResult :=
  {| FraudProbability := 0%float; RecommendedAction := "";
     Reasoning := ""; Confidence := 0%float |}.

(** The three level literals assigned to [level] in [CalculateRisk]. *)
Inductive RiskLevel := LOW | MEDIUM | HIGH.

Record RiskResult := {
  Score : Z;
  Level : RiskLevel;
  Reasons : list string;
  AITriggered : bool;
  AIConfidence : float;
  AISummary : string;
  AIRecommendation : string;
  AIFraudProbability : float
}.

(** ** Rule-based scoring (CalculateRisk, first half) *)

Section Rules.
Local Open Scope float_scope.

(** Rule 1: the tiered [switch] on [tx.Amount]; the first case that
    holds is taken. *)
Definition amountRule (tx : TransactionData) (reasons : list string)
  : float * list string :=
  if 500000 <? Amount tx then
    (1.0, append reasons "Very high transaction amount (>500k)"%string)
  else if 100000 <? Amount tx then
    (0.6, append reasons "High transaction amount (>100k)"%string)
  else if 50000 <? Amount tx then
    (0.3, append reasons "Elevated transaction amount (>50k)"%string)
  else (0.0, reasons).

(** Rule 2: [tx.Currency != "NGN"]. *)
Definition currencyRule (tx : TransactionData) (reasons : list string)
  : float * list string :=
  if negb (String.eqb (Currency tx) "NGN") then
    (1.0, append reasons ("Foreign currency transaction (" ++ Currency tx ++ ")")%string)
  else (0.0, reasons).

(** Rules 3 to 5: a field equal to the empty string. *)
Definition missingRule (field : string) (reason : string) (reasons : list string)
  : float * list string :=
  if String.eqb field "" then (1.0, append reasons reason) else (0.0, reasons).

(** The weighted sum, in the source's association (left to right). *)
Definition weightedScore (amountRisk currencyRisk deviceRisk ipRisk locationRisk : float)
  : float :=
  (amountRisk * 0.35) +
  (currencyRisk * 0.20) +
  (deviceRisk * 0.15) +
  (ipRisk * 0.15) +
  (locationRisk * 0.15).

(** Lines 250-315: the five rules, the weighted score and
    [finalScore := int(score * 100)], with the reasons gathered on the
    way. *)
Definition ruleEngine (tx : TransactionData) : Z * list string :=
  let reasons := [] in
  let '(amountRisk, reasons) := amountRule tx reasons in
  let '(currencyRisk, reasons) := currencyRule tx reasons in
  let '(deviceRisk, reasons) := missingRule (DeviceID tx) "Missing device ID" reasons in
  let '(ipRisk, reasons) := missingRule (IPAddress tx) "Missing IP address" reasons in
  let '(locationRisk, reasons) := missingRule (Location tx) "Missing location" reasons in
  let score := weightedScore amountRisk currencyRisk deviceRisk ipRisk locationRisk in
  let finalScore := Float64.int (score * 100) in
  (finalScore, reasons).

End Rules.

Definition ruleScore (tx : TransactionData) : Z := fst (ruleEngine tx).
Definition ruleReasons (tx : TransactionData) : list string := snd (ruleEngine tx).

(** Lines 320-325: the level from the rule-based score alone. *)
Definition levelOf (finalScore : Z) : RiskLevel :=
  if 70 <=? finalScore then HIGH
  else if 40 <=? finalScore then MEDIUM
  else LOW.

(** ** The AI gate (CalculateRisk, second half) *)

(** The [error] values [AnalyzeTransaction] returns, one per [fmt.Errorf]
    of its body, in source order. *)
Inductive AdvisoryError :=
| ErrAPIKeyNotSet
| ErrMarshalRequest
| ErrCreateRequest
| ErrHTTPRequestFailed
| ErrDecodeResponse
| ErrGroqAPI (message : string)
| ErrNoChoices
| ErrInvalidJSON (rawContent : string)
| ErrUnexpectedAction (action : string).

(** A Go [(T, error)] return: the value when [err == nil], the error
    otherwise (the accompanying value is then never read). *)
Inductive result (A : Type) :=
| Ok (value : A)
| Err (err : AdvisoryError).
Arguments Ok {A} value.
Arguments Err {A} err.

(** What an evaluation does besides computing its verdict: the
    [log.Printf] lines and the call of the advisory client. *)
Inductive Event :=
| LogGateCalling (finalScore : Z) (txn : string)
| CallAnalyzeTransaction (tx : TransactionData) (baselineScore : Z)
| LogAIError (txn : string) (err : AdvisoryError)
| LogAIOK (txn : string) (confidence : float) (action : string)
| LogGateSkipping (finalScore : Z) (txn : string).

(** A computation that emits events: a writer over [list Event]. *)
Definition Traced (A : Type) : Type := A * list Event.

Definition ret {A : Type} (a : A) : Traced A := (a, []).

Definition bind {A B : Type} (m : Traced A) (k : A -> Traced B) : Traced B :=
  let '(a, t1) := m in
  let '(b, t2) := k a in
  (b, (t1 ++ t2)%list).

Definition emit (e : Event) : Traced unit := (tt, [e]).

Notation "'do' x <- m ; k" := (bind m (fun x => k))
  (at level 10, x pattern, m at level 100, k at level 200).

(** The local variables the gate assigns. *)
Module Locals.
Record t := {
  level : RiskLevel;
  reasons : list string;
  aiTriggered : bool;
  aiResult : AIResult
}.
End Locals.

Section Gate.

(** The advisory client as [CalculateRisk] sees it: one call, one
    [(AIResult, error)] answer. *)
Variable AnalyzeTransaction : TransactionData -> Z -> result AIResult.

(** The [switch result.RecommendedAction] of lines 349-362; there is no
    [default] case. *)
Definition applyRecommendation (result : AIResult) (level : RiskLevel) (reasons : list string)
  : RiskLevel * list string :=
  if String.eqb (RecommendedAction result) "BLOCK" then
    (HIGH, append reasons ("AI recommends BLOCK: " ++ Reasoning result)%string)
  else if String.eqb (RecommendedAction result) "REVIEW" then
    ((match level with LOW => MEDIUM | _ => level end),
     append reasons ("AI recommends REVIEW: " ++ Reasoning result)%string)
  else if String.eqb (RecommendedAction result) "APPROVE" then
    (level, append reasons ("AI recommends APPROVE: " ++ Reasoning result)%string)
  else (level, reasons).

(** Lines 331-366. *)
Definition aiGate (tx : TransactionData) (finalScore : Z) (level : RiskLevel)
    (reasons : list string) : Traced Locals.t :=
  if 40 <=? finalScore then
    do _ <- emit (LogGateCalling finalScore (TransactionID tx)) ;
    do _ <- emit (CallAnalyzeTransaction tx finalScore) ;
    match AnalyzeTransaction tx finalScore with
    | Err err =>
        do _ <- emit (LogAIError (TransactionID tx) err) ;
        ret {| Locals.level := HIGH;
               Locals.reasons := append reasons
                 "AI analysis unavailable — escalated to HIGH for manual review";
               Locals.aiTriggered := true;
               Locals.aiResult := AIResult_zero |}
    | Ok result =>
        do _ <- emit (LogAIOK (TransactionID tx) (Confidence result) (RecommendedAction result)) ;
        let '(level, reasons) := applyRecommendation result level reasons in
        ret {| Locals.level := level; Locals.reasons := reasons;
               Locals.aiTriggered := true; Locals.aiResult := result |}
    end
  else
    do _ <- emit (LogGateSkipping finalScore (TransactionID tx)) ;
    ret {| Locals.level := level; Locals.reasons := reasons;
           Locals.aiTriggered := false; Locals.aiResult := AIResult_zero |}.

(** [CalculateRisk]: the rules, the level, the gate, and the
    [RiskResult] literal of lines 368-377. *)
Definition CalculateRiskTraced (tx : TransactionData) : Traced RiskResult :=
  let '(finalScore, reasons) := ruleEngine tx in
  let level := levelOf finalScore in
  do l <- aiGate tx finalScore level reasons ;
  ret {| Score := finalScore;
         Level := Locals.level l;
         Reasons := Locals.reasons l;
         AITriggered := Locals.aiTriggered l;
         AIConfidence := Confidence (Locals.aiResult l);
         AISummary := Reasoning (Locals.aiResult l);
         AIRecommendation := RecommendedAction (Locals.aiResult l);
         AIFraudProbability := FraudProbability (Locals.aiResult l) |}.

(** The value [CalculateRisk] returns. *)
Definition CalculateRisk (tx : TransactionData) : RiskResult :=
  fst (CalculateRiskTraced tx).

(** Whether the evaluation called the advisory client. *)
Definition consulted (tx : TransactionData) : bool :=
  existsb (fun e => match e with CallAnalyzeTransaction _ _ => true | _ => false end)
          (snd (CalculateRiskTraced tx)).

End Gate.

(** ** The advisory client (ai_service.go) *)

(** The two message bodies.  The fixed instruction text and the
    [fmt.Sprintf] rendering of the transaction are kept symbolic: the
    client never inspects them. *)
Inductive Prompt :=
| systemPrompt
| userPrompt (transactionID : string) (amount : float)
    (currency location deviceID ipAddress : string) (baselineScore : Z).

Record groqMessage := {
  Role : string;
  Content : Prompt
}.

Record groqRequest := {
  Model : string;
  Messages : list groqMessage;
  Temperature : float;
  MaxTokens : Z
}.

(** [Choices] holds each choice's [Message.Content]; [Error] holds
    [Error.Message], [None] for the nil pointer. *)
Record groqResponse := {
  Choices : list string;
  Error : option string
}.

Record Request := {
  Method : string;
  URL : string;
  Body : string;
  Header : gmap string string
}.

(** [httpReq.Header.Set(key, value)]. *)
Definition HeaderSet (req : Request) (key value : string) : Request :=
  {| Method := Method req; URL := URL req; Body := Body req;
     Header := <[key := value]> (Header req) |}.

(** What the client takes from outside the repository: the process
    environment, the network, and the library routines of
    [encoding/json], [net/http] and [strings] whose tables and parsers
    are not part of it.  A fallible routine answers [None] where the Go
    routine returns a non-nil error. *)
Record World := {
  environ : gmap string string;
  Marshal : groqRequest -> option string;
  NewRequest : string -> string -> string -> option Request;
  Do : Z -> Request -> option string;
  Decode : string -> option groqResponse;
  TrimSpace : string -> string;
  Unmarshal : string -> option AIResult
}.

(** [os.Getenv]: the value, or the empty string when the variable is
    not set. *)
Definition Getenv (environ : gmap string string) (key : string) : string :=
  default "" (environ !! key).

(** [strings.TrimPrefix] and [strings.TrimSuffix]. *)
Definition TrimPrefix (s prefix : string) : string :=
  if String.prefix prefix s
  then String.substring (String.length prefix) (String.length s - String.length prefix) s
  else s.

Definition HasSuffix (s suffix : string) : bool :=
  (String.length suffix <=? String.length s)%nat &&
  String.eqb (String.substring (String.length s - String.length suffix)
                               (String.length suffix) s) suffix.

Definition TrimSuffix (s suffix : string) : string :=
  if HasSuffix s suffix
  then String.substring 0 (String.length s - String.length suffix) s
  else s.

(** Sequencing of fallible steps: [v, err := f(); if err != nil { return
    AIResult{}, ... }]. *)
Definition orFail {A : Type} (o : option A) (e : AdvisoryError) : result A :=
  match o with
  | Some a => Ok a
  | None => Err e
  end.

Definition andThen {A B : Type} (r : result A) (k : A -> result B) : result B :=
  match r with
  | Ok a => k a
  | Err e => Err e
  end.

Notation "'try' x <- r ; k" := (andThen r (fun x => k))
  (at level 10, x pattern, r at level 100, k at level 200).

(** Lines 130-136: the fence stripping of the first choice. *)
Definition stripFences (w : World) (content : string) : string :=
  let rawContent := TrimSpace w content in
  let rawContent := TrimPrefix rawContent "```json" in
  let rawContent := TrimPrefix rawContent "```" in
  let rawContent := TrimSuffix rawContent "```" in
  TrimSpace w rawContent.

(** Lines 143-151: the [switch aiResult.RecommendedAction] with its
    single case ["APPROVE", "REVIEW", "BLOCK"] and its [default]. *)
Definition validAction (action : string) : bool :=
  String.eqb action "APPROVE" || String.eqb action "REVIEW" || String.eqb action "BLOCK".

Definition checkAction (aiResult : AIResult) : result AIResult :=
  if validAction (RecommendedAction aiResult)
  then Ok aiResult
  else Err (ErrUnexpectedAction (RecommendedAction aiResult)).

(** Lines 47-141: from the credential to the unmarshalled [aiResult]. *)
Definition parseOpinion (w : World) (tx : TransactionData) (baselineScore : Z)
  : result AIResult :=
  let apiKey := Getenv (environ w) "GROQ_API_KEY" in
  if String.eqb apiKey "" then Err ErrAPIKeyNotSet else
  let body :=
    {| Model := "llama-3.3-70b-versatile";
       Temperature := 0.1%float;
       MaxTokens := 256;
       Messages :=
         [ {| Role := "system"; Content := systemPrompt |};
           {| Role := "user";
              Content := userPrompt (TransactionID tx) (Amount tx) (Currency tx)
                           (Location tx) (DeviceID tx) (IPAddress tx) baselineScore |} ] |} in
  try jsonData <- orFail (Marshal w body) ErrMarshalRequest ;
  try httpReq <- orFail (NewRequest w "POST"
                           "https://api.groq.com/openai/v1/chat/completions" jsonData)
                        ErrCreateRequest ;
  let httpReq := HeaderSet httpReq "Authorization" ("Bearer " ++ apiKey)%string in
  let httpReq := HeaderSet httpReq "Content-Type" "application/json" in
  try resp <- orFail (Do w 10 httpReq) ErrHTTPRequestFailed ;
  try groqResp <- orFail (Decode w resp) ErrDecodeResponse ;
  match Error groqResp with
  | Some message => Err (ErrGroqAPI message)
  | None =>
      match Choices groqResp with
      | [] => Err ErrNoChoices
      | content :: _ =>
          let rawContent := stripFences w content in
          orFail (Unmarshal w rawContent) (ErrInvalidJSON rawContent)
      end
  end.

(** [AnalyzeTransaction]: the opinion is returned once its action has
    passed the [switch]. *)
Definition AnalyzeTransaction (w : World) (tx : TransactionData) (baselineScore : Z)
  : result AIResult :=
  try aiResult <- parseOpinion w tx baselineScore ;
  checkAction aiResult.

(** ** Start-up (main.go) *)

(** Where [main] ends: serving on an address with the environment it
    has then, or stopped by [log.Fatalf]. *)
Inductive Startup :=
| Listening (environ : gmap string string) (addr : string)
| Fatal.

(** [godotenv.Load()], a library call: the variables of the parsed
    [.env] file are added to the environment, a variable that is
    already set keeps its value (the union is left-biased); [None] is a
    file that cannot be read or parsed.  The boolean is [err != nil]. *)
Definition godotenvLoad (environ : gmap string string)
    (dotenv : option (gmap string string)) : gmap string string * bool :=
  match dotenv with
  | None => (environ, true)
  | Some envMap => (environ ∪ envMap, false)
  end.

(** [main]: a failed load is only logged; the port defaults to 8080
    and gets its colon. *)
Definition main (environ : gmap string string)
    (dotenv : option (gmap string string)) : Startup :=
  let '(environ, _) := godotenvLoad environ dotenv in
  let port := Getenv environ "PORT" in
  let port := if String.eqb port "" then "8080" else port in
  let port :=
    match port with
    | String ":"%char _ => port
    | _ => (":" ++ port)%string
    end in
  Listening environ port.

(** The earlier revision of [main] kept in main.go: a failed load is
    fatal, the address is fixed. *)
Definition main_fixed_port (environ : gmap string string)
    (dotenv : option (gmap string string)) : Startup :=
  let '(environ, err) := godotenvLoad environ dotenv in
  if err then Fatal else Listening environ ":8081".

(** ** The opinion and the score as the specification words them *)

(** The domains of an advisory opinion: both numbers within [0,1] and
    the action one of the three. *)
Definition specValidOpinion (opinion : AIResult) : bool :=
  (0 <=? FraudProbability opinion)%float && (FraudProbability opinion <=? 1)%float
  && (0 <=? Confidence opinion)%float && (Confidence opinion <=? 1)%float
  && validAction (RecommendedAction opinion).

(** Exact rational arithmetic: floor (100 * sum of risk * weight). *)
Definition specAmountRisk (tx : TransactionData) : Q :=
  if (500000 <? Amount tx)%float then 1
  else if (100000 <? Amount tx)%float then 6 # 10
  else if (50000 <? Amount tx)%float then 3 # 10
  else 0.

Definition specFlag (b : bool) : Q := if b then 1 else 0.

Definition specScore (tx : TransactionData) : Z :=
  Qfloor (100 * (specAmountRisk tx * (35 # 100)
                 + specFlag (negb (String.eqb (Currency tx) "NGN")) * (20 # 100)
                 + specFlag (String.eqb (DeviceID tx) "") * (15 # 100)
                 + specFlag (String.eqb (IPAddress tx) "") * (15 # 100)
                 + specFlag (String.eqb (Location tx) "") * (15 # 100)))%Q.

(** The order LOW < MEDIUM < HIGH. *)
Definition levelRank (l : RiskLevel) : Z :=
  match l with
  | LOW => 0
  | MEDIUM => 1
  | HIGH => 2
  end.

(** ** Sample inputs *)

(** Amount 0, home currency, and no device, IP address or location. *)
Definition emptyFields (userID transactionID : string) : TransactionData :=
  {| UserID := userID; TransactionID := transactionID; Amount := 0%float;
     Currency := "NGN"; IPAddress := ""; DeviceID := ""; Location := "" |}.

Definition emptyFieldsTx : TransactionData := emptyFields "u1" "t1".

Definition reviewTx : TransactionData :=
  {| UserID := "u2"; TransactionID := "t2"; Amount := 250000%float; Currency := "USD";
     IPAddress := "10.0.0.7"; DeviceID := "dev-1"; Location := "Lagos" |}.

Definition reviewAnswer : AIResult :=
  {| FraudProbability := 0.4%float; RecommendedAction := "REVIEW";
     Reasoning := "Foreign currency with a high amount"; Confidence := 0.7%float |}.

Definition outOfRangeAnswer : AIResult :=
  {| FraudProbability := 1.5%float; RecommendedAction := "APPROVE";
     Reasoning := "Looks routine"; Confidence := 2%float |}.

(** A provider that is reached and whose first choice, a fenced JSON
    object, unmarshals to [answer]. *)
Definition replyingWorld (environ : gmap string string) (answer : AIResult) : World :=
  {| environ := environ;
     Marshal := fun _ => Some "request";
     NewRequest := fun method url body =>
       Some {| Method := method; URL := url; Body := body; Header := ∅ |};
     Do := fun _ _ => Some "response";
     Decode := fun _ => Some {| Choices := ["```json{opinion}```"]; Error := None |};
     TrimSpace := fun s => s;
     Unmarshal := fun raw => if String.eqb raw "{opinion}" then Some answer else None |}.

(** An environment, or a [.env] file, that sets the port alone. *)
Definition portOnly : gmap string string := {[ "PORT" := "8081" ]}.

(** No amount tier matched, home currency, and the three optional
    fields empty. *)
Definition onlyMissingFields (tx : TransactionData) : bool :=
  negb (500000 <? Amount tx)%float && negb (100000 <? Amount tx)%float
  && negb (50000 <? Amount tx)%float
  && String.eqb (Currency tx) "NGN"
  && String.eqb (DeviceID tx) "" && String.eqb (IPAddress tx) ""
  && String.eqb (Location tx) "".

(** ** Further views of the current engine *)

(** The case of the amount [switch] that is taken: 3 for the first, 0
    when none matches. *)
Definition amountTier (tx : TransactionData) : nat :=
  if (500000 <? Amount tx)%float then 3%nat
  else if (100000 <? Amount tx)%float then 2%nat
  else if (50000 <? Amount tx)%float then 1%nat
  else 0%nat.

(** The calls of the advisory client an evaluation made, in order. *)
Definition calls (trace : list Event) : list (TransactionData * Z) :=
  flat_map (fun e => match e with
                     | CallAnalyzeTransaction tx baselineScore => [(tx, baselineScore)]
                     | _ => []
                     end) trace.

(** Lines 47-119 of [AnalyzeTransaction] on their own: from the
    credential to the decoded [groqResp]. *)
Definition exchange (w : World) (tx : TransactionData) (baselineScore : Z)
  : result groqResponse :=
  let apiKey := Getenv (environ w) "GROQ_API_KEY" in
  if String.eqb apiKey "" then Err ErrAPIKeyNotSet else
  let body :=
    {| Model := "llama-3.3-70b-versatile";
       Temperature := 0.1%float;
       MaxTokens := 256;
       Messages :=
         [ {| Role := "system"; Content := systemPrompt |};
           {| Role := "user";
              Content := userPrompt (TransactionID tx) (Amount tx) (Currency tx)
                           (Location tx) (DeviceID tx) (IPAddress tx) baselineScore |} ] |} in
  try jsonData <- orFail (Marshal w body) ErrMarshalRequest ;
  try httpReq <- orFail (NewRequest w "POST"
                           "https://api.groq.com/openai/v1/chat/completions" jsonData)
                        ErrCreateRequest ;
  let httpReq := HeaderSet httpReq "Authorization" ("Bearer " ++ apiKey)%string in
  let httpReq := HeaderSet httpReq "Content-Type" "application/json" in
  try resp <- orFail (Do w 10 httpReq) ErrHTTPRequestFailed ;
  orFail (Decode w resp) ErrDecodeResponse.

(** ** The HTTP layer (routes.go, middleware) *)

Module gin.

(** A [gin.H] value as the handlers build them. *)
Inductive JSONValue :=
| JString (s : string)
| JInt (n : Z)
| JFloat (f : float)
| JStrings (l : list string).

(** [c.JSON(code, obj)]: the status and the [gin.H] map written. *)
Record Reply := {
  status : Z;
  payload : gmap string JSONValue
}.

(** What a handler reads of the request: [c.GetHeader], a library
    call, and the raw body. *)
Record Context := {
  GetHeader : string -> string;
  rawBody : string
}.

(** What a handler of a chain does: it lets the chain go on
    ([c.Next()], or returning without a reply), or it writes a reply
    that ends the chain ([c.Abort()] in a middleware, the last handler
    otherwise). *)
Inductive Step :=
| Next
| Respond (reply : Reply).

Definition HandlerFunc : Type := Context -> Step.

Record Route := {
  httpMethod : string;
  path : string;
  chain : list HandlerFunc
}.

(** The handlers of a chain run in order until one replies. *)
Fixpoint runChain (chain : list HandlerFunc) (c : Context) : option Reply :=
  match chain with
  | [] => None
  | handler :: rest =>
      match handler c with
      | Respond reply => Some reply
      | Next => runChain rest c
      end
  end.

(** The router on static paths: the first route with this method and
    path; [None] where gin falls back to its own 404. *)
Definition serve (routes : list Route) (method target : string) (c : Context)
  : option Reply :=
  match List.find (fun r => String.eqb (httpMethod r) method && String.eqb (path r) target)
                  routes with
  | Some r => runChain (chain r) c
  | None => None
  end.

End gin.

Module middleware.

(** [APIKeyAuth]: the handler it returns, with the lines it prints.
    The expected key is read from the environment on every request. *)
Definition APIKeyAuthTraced (environ : gmap string string) (c : gin.Context)
  : gin.Step * list string :=
  let apikey := gin.GetHeader c "x-api-key" in
  let printed := [("postman sent: " ++ apikey)%string] in
  let expectedKey := Getenv environ "ASGUARD_API_KEY" in
  let printed := append printed ("the program is looking for " ++ expectedKey)%string in
  if String.eqb apikey "" || negb (String.eqb apikey expectedKey) then
    (gin.Respond {| gin.status := 401;
                    gin.payload := {[ "error" := gin.JString "unauthorised" ]} |},
     printed)
  else (gin.Next, printed).

Definition APIKeyAuth (environ : gmap string string) : gin.HandlerFunc :=
  fun c => fst (APIKeyAuthTraced environ c).

End middleware.

Module routes.

Record TransactionRequest := {
  UserID : string;
  TransactionID : string;
  Amount : float;
  Currency : string;
  IPAddress : string;
  DeviceID : string;
  SimID : string;
  Timestamp : string
}.

Section Handlers.

(** [c.ShouldBindJSON(&req)], a library call: the bound request, or
    [None] when binding or validation fails. *)
Variable ShouldBindJSON : gin.Context -> option TransactionRequest.

(** [services.CalculateRisk] as the handler calls it. *)
Variable CalculateRisk : TransactionData -> RiskResult.

(** The [services.TransactionData] literal of the handler: six fields
    are set, [Location] is left at its zero value. *)
Definition toTransactionData (req : TransactionRequest) : TransactionData :=
  Build_TransactionData (UserID req) (TransactionID req) (Amount req) (Currency req)
    (IPAddress req) (DeviceID req) "".

Definition levelString (l : RiskLevel) : string :=
  match l with
  | LOW => "LOW"
  | MEDIUM => "MEDIUM"
  | HIGH => "HIGH"
  end.

Definition AnalyzeTransaction : gin.HandlerFunc :=
  fun c =>
    match ShouldBindJSON c with
    | None =>
        gin.Respond {| gin.status := 400;
                       gin.payload := {[ "error" := gin.JString "invalid request payload" ]} |}
    | Some req =>
        let riskResult := CalculateRisk (toTransactionData req) in
        gin.Respond
          {| gin.status := 200;
             gin.payload :=
               <[ "transaction_id" := gin.JString (TransactionID req) ]>
               (<[ "risk_score" := gin.JInt (Score riskResult) ]>
               (<[ "risk_level" := gin.JString (levelString (Level riskResult)) ]>
               (<[ "reasons" := gin.JStrings (Reasons riskResult) ]>
               (<[ "ai_confidence" := gin.JFloat (AIConfidence riskResult) ]>
               (<[ "ai_summary" := gin.JString (AISummary riskResult) ]>
               {[ "message" := gin.JString "Transaction received successfully" ]}))))) |}
    end.

(** [RegisterRoutes]: the health check on the router itself, the two
    other routes in the group that uses [APIKeyAuth]. *)
Definition RegisterRoutes (environ : gmap string string) : list gin.Route :=
  [ {| gin.httpMethod := "GET"; gin.path := "/health";
       gin.chain :=
         [fun _ => gin.Respond
            {| gin.status := 200;
               gin.payload := {[ "status" := gin.JString "asguard health running" ]} |}] |};
    {| gin.httpMethod := "POST"; gin.path := "/analyze";
       gin.chain := [middleware.APIKeyAuth environ; AnalyzeTransaction] |};
    {| gin.httpMethod := "GET"; gin.path := "/secure-test";
       gin.chain :=
         [middleware.APIKeyAuth environ;
          fun _ => gin.Respond
            {| gin.status := 200;
               gin.payload := {[ "message" := gin.JString "API key valid" ]} |}] |} ].

End Handlers.

End routes.

(** ** The first revision of the engine (risk_engine.go, ai_service.go) *)

Module Legacy.

Record TransactionData := {
  UserID : string;
  TransactionID : string;
  Amount : float;
  Currency : string;
  IPAddress : string;
  DeviceID : string
}.

Record RiskResult := {
  Score : Z;
  Level : RiskLevel;
  Reasons : list string;
  AIConfidence : float;
  AISummary : string
}.

Record AIResult := {
  Confidence : float;
  Summary : string
}.

(** What the placeholder does besides answering. *)
Inductive Effect :=
| Sleep (milliseconds : Z)
| Printf (transactionID : string) (baselineScore : Z).

(** The placeholder [AnalyzeTransaction]. *)
Definition AnalyzeTransaction (tx : TransactionData) (baselineScore : Z)
  : AIResult * list Effect :=
  let effects := [Sleep 50] in
  let summary := "No AI integration yet" in
  let confidence := 0.0%float in
  let '(summary, confidence) :=
    if 50 <=? baselineScore
    then ("Simulated AI: anomaly detected due to high amount and foreign currency",
          0.85%float)
    else (summary, confidence) in
  let effects := append effects (Printf (TransactionID tx) baselineScore) in
  ({| Confidence := confidence; Summary := summary |}, effects).

(** [risk += 1.0] on a rule that holds, as the first two rules write
    it; [risk = 1.0] for the other two. *)
Definition CalculateRiskTraced (tx : TransactionData) : RiskResult * list Effect :=
  let reasons := [] in
  let amountWeight := 0.4%float in
  let currencyWeight := 0.2%float in
  let deviceWeight := 0.2%float in
  let ipWeight := 0.2%float in
  let '(amountRisk, reasons) :=
    if (100000 <? Amount tx)%float
    then ((0.0 + 1.0)%float, append reasons "High transaction amount")
    else (0.0%float, reasons) in
  let '(currencyRisk, reasons) :=
    if negb (String.eqb (Currency tx) "NGN")
    then ((0.0 + 1.0)%float, append reasons "Foreign currency")
    else (0.0%float, reasons) in
  let '(deviceRisk, reasons) :=
    if String.eqb (DeviceID tx) ""
    then (1.0%float, append reasons "Missing device ID")
    else (0.0%float, reasons) in
  let '(ipRisk, reasons) :=
    if String.eqb (IPAddress tx) ""
    then (1.0%float, append reasons "Missing IP address")
    else (0.0%float, reasons) in
  let score :=
    ((amountRisk * amountWeight) +
     (currencyRisk * currencyWeight) +
     (deviceRisk * deviceWeight) +
     (ipRisk * ipWeight))%float in
  let finalScore := Float64.int (score * 100)%float in
  let level := levelOf finalScore in
  let '(aiResult, effects) :=
    if 50 <=? finalScore
    then AnalyzeTransaction tx finalScore
    else ({| Confidence := 0%float; Summary := "" |}, []) in
  ({| Score := finalScore;
      Level := level;
      Reasons := reasons;
      AIConfidence := Confidence aiResult;
      AISummary := Summary aiResult |}, effects).

Definition CalculateRisk (tx : TransactionData) : RiskResult :=
  fst (CalculateRiskTraced tx).

End Legacy.

(** ** Further sample inputs and auxiliary views *)

Definition keyedContext (key : string) : gin.Context :=
  {| gin.GetHeader := fun name => if String.eqb name "x-api-key" then key else "";
     gin.rawBody := "" |}.

Definition sampleRequest : routes.TransactionRequest :=
  {| routes.UserID := "u2"; routes.TransactionID := "t2";
     routes.Amount := 250000%float; routes.Currency := "USD";
     routes.IPAddress := "10.0.0.7"; routes.DeviceID := "dev-1";
     routes.SimID := "sim-1"; routes.Timestamp := "2024-01-01T00:00:00Z" |}.

Definition serverEnviron : gmap string string :=
  {[ "ASGUARD_API_KEY" := "secret-key" ]}.

(** The risk value of each case of the amount [switch], and of a rule
    that holds or not. *)
Definition tierRisk (tier : nat) : float :=
  match tier with
  | 3%nat => 1.0%float
  | 2%nat => 0.6%float
  | 1%nat => 0.3%float
  | _ => 0.0%float
  end.

Definition flagRisk (holds : bool) : float := if holds then 1.0%float else 0.0%float.

(** [finalScore] as a function of the five rule outcomes. *)
Definition scoreOf (tier : nat) (foreign noDevice noIP noLocation : bool) : Z :=
  Float64.int (weightedScore (tierRisk tier) (flagRisk foreign) (flagRisk noDevice)
                 (flagRisk noIP) (flagRisk noLocation) * 100)%float.

Definition ruleCount (tx : TransactionData) : nat :=
  ((if (0 <? amountTier tx)%nat then 1 else 0)
   + (if negb (String.eqb (Currency tx) "NGN") then 1 else 0)
   + (if String.eqb (DeviceID tx) "" then 1 else 0)
   + (if String.eqb (IPAddress tx) "" then 1 else 0)
   + (if String.eqb (Location tx) "" then 1 else 0))%nat.

Definition largeAnonymousTx : TransactionData :=
  {| UserID := "u3"; TransactionID := "t3"; Amount := 600000%float; Currency := "USD";
     IPAddress := "10.0.0.7"; DeviceID := ""; Location := "Lagos" |}.

Definition largeHomeTx : TransactionData :=
  {| UserID := "u4"; TransactionID := "t4"; Amount := 10000000%float; Currency := "NGN";
     IPAddress := "10.0.0.9"; DeviceID := "dev-4"; Location := "Abuja" |}.

Definition blockAnswer : AIResult :=
  {| FraudProbability := 0.95%float; RecommendedAction := "BLOCK";
     Reasoning := "Amount far above the user pattern"; Confidence := 0.9%float |}.

(** A choice whose content is [inner] between an opening fence, with the
    language tag or without, and a closing fence. *)
Definition fenced (tagged : bool) (inner : string) : string :=
  ((if tagged then "```json" else "```") ++ inner ++ "```")%string.

(** The reply of a rejected request. *)
Definition unauthorised : gin.Reply :=
  {| gin.status := 401; gin.payload := {[ "error" := gin.JString "unauthorised" ]} |}.

Definition sampleBinder (c : gin.Context) : option routes.TransactionRequest :=
  if String.eqb (gin.rawBody c) "" then None else Some sampleRequest.

Definition sampleContext (key body : string) : gin.Context :=
  {| gin.GetHeader := fun name => if String.eqb name "x-api-key" then key else "";
     gin.rawBody := body |}.

Definition otherSimRequest : routes.TransactionRequest :=
  {| routes.UserID := "u2"; routes.TransactionID := "t2";
     routes.Amount := 250000%float; routes.Currency := "USD";
     routes.IPAddress := "10.0.0.7"; routes.DeviceID := "dev-1";
     routes.SimID := "sim-2"; routes.Timestamp := "2024-06-30T12:00:00Z" |}.

Definition otherSimBinder (c : gin.Context) : option routes.TransactionRequest :=
  if String.eqb (gin.rawBody c) "first" then Some sampleRequest else Some otherSimRequest.

(** The world [w] behind a provider front that only lets through
    requests made with a 10 second timeout, the bearer credential of the
    environment and a JSON content type. *)
Definition guardedWorld (w : World) : World :=
  {| environ := environ w;
     Marshal := Marshal w;
     NewRequest := NewRequest w;
     Do := fun timeout req =>
       if (timeout =? 10)
          && bool_decide (Header req !! "Authorization"
                          = Some ("Bearer " ++ Getenv (environ w) "GROQ_API_KEY")%string)
          && bool_decide (Header req !! "Content-Type" = Some "application/json")
       then Do w timeout req
       else None;
     Decode := Decode w;
     TrimSpace := TrimSpace w;
     Unmarshal := Unmarshal w |}.

(** * Properties *)

(** ** The gate, step by step *)

Lemma CalculateRisk_fields (analyze : TransactionData -> Z -> result AIResult)
    (tx : TransactionData) :
  let l := fst (aiGate analyze tx (ruleScore tx) (levelOf (ruleScore tx)) (ruleReasons tx)) in
  CalculateRisk analyze tx =
    {| Score := ruleScore tx;
       Level := Locals.level l;
       Reasons := Locals.reasons l;
       AITriggered := Locals.aiTriggered l;
       AIConfidence := Confidence (Locals.aiResult l);
       AISummary := Reasoning (Locals.aiResult l);
       AIRecommendation := RecommendedAction (Locals.aiResult l);
       AIFraudProbability := FraudProbability (Locals.aiResult l) |}.
Proof.
  unfold CalculateRisk, CalculateRiskTraced, ruleScore, ruleReasons.
  destruct (ruleEngine tx) as [finalScore rs]; simpl.
  unfold bind.
  destruct (aiGate analyze tx finalScore (levelOf finalScore) rs) as [l t].
  reflexivity.
Qed.

Lemma CalculateRisk_trace (analyze : TransactionData -> Z -> result AIResult)
    (tx : TransactionData) :
  snd (CalculateRiskTraced analyze tx) =
  snd (aiGate analyze tx (ruleScore tx) (levelOf (ruleScore tx)) (ruleReasons tx)).
Proof.
  unfold CalculateRiskTraced, ruleScore, ruleReasons.
  destruct (ruleEngine tx) as [finalScore rs]; simpl.
  unfold bind.
  destruct (aiGate analyze tx finalScore (levelOf finalScore) rs) as [l t].
  simpl. apply app_nil_r.
Qed.

Lemma aiGate_skip (analyze : TransactionData -> Z -> result AIResult)
    (tx : TransactionData) (finalScore : Z) (lvl : RiskLevel) (rs : list string) :
  finalScore < 40 ->
  aiGate analyze tx finalScore lvl rs =
    ({| Locals.level := lvl; Locals.reasons := rs;
        Locals.aiTriggered := false; Locals.aiResult := AIResult_zero |},
     [LogGateSkipping finalScore (TransactionID tx)]).
Proof.
  intros Hlt. unfold aiGate.
  destruct (Z.leb_spec 40 finalScore) as [Hge | _]; [lia | reflexivity].
Qed.

Lemma aiGate_error (analyze : TransactionData -> Z -> result AIResult)
    (tx : TransactionData) (finalScore : Z) (lvl : RiskLevel) (rs : list string)
    (err : AdvisoryError) :
  40 <= finalScore ->
  analyze tx finalScore = Err err ->
  aiGate analyze tx finalScore lvl rs =
    ({| Locals.level := HIGH;
        Locals.reasons :=
          append rs "AI analysis unavailable — escalated to HIGH for manual review";
        Locals.aiTriggered := true; Locals.aiResult := AIResult_zero |},
     [LogGateCalling finalScore (TransactionID tx);
      CallAnalyzeTransaction tx finalScore;
      LogAIError (TransactionID tx) err]).
Proof.
  intros Hge Herr. unfold aiGate.
  destruct (Z.leb_spec 40 finalScore) as [_ | Hlt]; [| lia].
  rewrite Herr. reflexivity.
Qed.

Lemma aiGate_answer (analyze : TransactionData -> Z -> result AIResult)
    (tx : TransactionData) (finalScore : Z) (lvl : RiskLevel) (rs : list string)
    (answer : AIResult) :
  40 <= finalScore ->
  analyze tx finalScore = Ok answer ->
  aiGate analyze tx finalScore lvl rs =
    ({| Locals.level := fst (applyRecommendation answer lvl rs);
        Locals.reasons := snd (applyRecommendation answer lvl rs);
        Locals.aiTriggered := true; Locals.aiResult := answer |},
     [LogGateCalling finalScore (TransactionID tx);
      CallAnalyzeTransaction tx finalScore;
      LogAIOK (TransactionID tx) (Confidence answer) (RecommendedAction answer)]).
Proof.
  intros Hge Hok. unfold aiGate.
  destruct (Z.leb_spec 40 finalScore) as [_ | Hlt]; [| lia].
  rewrite Hok.
  destruct (applyRecommendation answer lvl rs) as [lvl' rs']. reflexivity.
Qed.

Lemma applyRecommendation_raises (answer : AIResult) (lvl : RiskLevel) (rs : list string) :
  levelRank lvl <= levelRank (fst (applyRecommendation answer lvl rs)).
Proof.
  unfold applyRecommendation.
  destruct (String.eqb (RecommendedAction answer) "BLOCK");
    [destruct lvl; simpl; lia |].
  destruct (String.eqb (RecommendedAction answer) "REVIEW");
    [destruct lvl; simpl; lia |].
  destruct (String.eqb (RecommendedAction answer) "APPROVE"); simpl; lia.
Qed.

Lemma levelRank_HIGH_max (lvl : RiskLevel) : levelRank lvl <= levelRank HIGH.
Proof. destruct lvl; simpl; lia. Qed.

Lemma levelOf_gate (finalScore : Z) : 40 <= finalScore -> levelOf finalScore <> LOW.
Proof.
  intros Hge. unfold levelOf.
  destruct (Z.leb_spec 70 finalScore); [discriminate |].
  destruct (Z.leb_spec 40 finalScore); [discriminate | lia].
Qed.

(** ** Escalation policy *)

(** C1: escalate-only. Whatever the advisory client answers for a
    transaction (an opinion with any action, or an error), the level of
    the verdict is at least the rule-based level in the order
    LOW < MEDIUM < HIGH. *)
Theorem escalate_only (analyze : TransactionData -> Z -> result AIResult)
    (tx : TransactionData) :
  levelRank (levelOf (ruleScore tx)) <= levelRank (Level (CalculateRisk analyze tx)).
Proof.
  rewrite CalculateRisk_fields; cbv zeta; simpl Level.
  destruct (Z.lt_ge_cases (ruleScore tx) 40) as [Hlt | Hge].
  - rewrite aiGate_skip by exact Hlt. simpl. lia.
  - destruct (analyze tx (ruleScore tx)) as [answer | err] eqn:Hcall.
    + rewrite (aiGate_answer _ _ _ _ _ answer Hge Hcall). simpl.
      apply applyRecommendation_raises.
    + rewrite (aiGate_error _ _ _ _ _ err Hge Hcall). simpl Locals.level.
      apply levelRank_HIGH_max.
Qed.

Lemma consulted_iff (analyze : TransactionData -> Z -> result AIResult)
    (tx : TransactionData) :
  consulted analyze tx = true <-> 40 <= ruleScore tx.
Proof.
  unfold consulted. rewrite CalculateRisk_trace.
  destruct (Z.lt_ge_cases (ruleScore tx) 40) as [Hlt | Hge].
  - rewrite aiGate_skip by exact Hlt. simpl. split; [discriminate | lia].
  - destruct (analyze tx (ruleScore tx)) as [answer | err] eqn:Hcall.
    + rewrite (aiGate_answer _ _ _ _ _ answer Hge Hcall). simpl. tauto.
    + rewrite (aiGate_error _ _ _ _ _ err Hge Hcall). simpl. tauto.
Qed.

Lemma triggered_iff (analyze : TransactionData -> Z -> result AIResult)
    (tx : TransactionData) :
  AITriggered (CalculateRisk analyze tx) = true <-> 40 <= ruleScore tx.
Proof.
  rewrite CalculateRisk_fields; cbv zeta; simpl AITriggered.
  destruct (Z.lt_ge_cases (ruleScore tx) 40) as [Hlt | Hge].
  - rewrite aiGate_skip by exact Hlt. simpl. split; [discriminate | lia].
  - destruct (analyze tx (ruleScore tx)) as [answer | err] eqn:Hcall.
    + rewrite (aiGate_answer _ _ _ _ _ answer Hge Hcall). simpl. tauto.
    + rewrite (aiGate_error _ _ _ _ _ err Hge Hcall). simpl. tauto.
Qed.

Lemma fail_safe_gate (analyze : TransactionData -> Z -> result AIResult)
    (tx : TransactionData) (err : AdvisoryError) :
  40 <= ruleScore tx ->
  analyze tx (ruleScore tx) = Err err ->
  Level (CalculateRisk analyze tx) = HIGH /\
  AITriggered (CalculateRisk analyze tx) = true.
Proof.
  intros Hge Herr.
  rewrite CalculateRisk_fields; cbv zeta.
  rewrite (aiGate_error _ _ _ _ _ err Hge Herr). simpl. split; reflexivity.
Qed.

(** C2: fail-safe. When the rule score opens the gate and the advisory
    call returns an error, the verdict has level HIGH, the fixed reason
    is appended to the rule reasons, the four advisory fields hold their
    zero values and [AITriggered] is true. *)
Theorem fail_safe_on_advisory_error (analyze : TransactionData -> Z -> result AIResult)
    (tx : TransactionData) (err : AdvisoryError) :
  40 <= ruleScore tx ->
  analyze tx (ruleScore tx) = Err err ->
  Level (CalculateRisk analyze tx) = HIGH /\
  Reasons (CalculateRisk analyze tx) =
    append (ruleReasons tx) "AI analysis unavailable — escalated to HIGH for manual review" /\
  AITriggered (CalculateRisk analyze tx) = true /\
  AIConfidence (CalculateRisk analyze tx) = 0%float /\
  AIFraudProbability (CalculateRisk analyze tx) = 0%float /\
  AIRecommendation (CalculateRisk analyze tx) = "" /\
  AISummary (CalculateRisk analyze tx) = "".
Proof.
  intros Hge Herr.
  rewrite CalculateRisk_fields; cbv zeta.
  rewrite (aiGate_error _ _ _ _ _ err Hge Herr). simpl.
  repeat split.
Qed.

Lemma fail_safe_on_advisory_error_witness :
  Level (CalculateRisk (fun _ _ => Err ErrHTTPRequestFailed) emptyFieldsTx) = HIGH /\
  Reasons (CalculateRisk (fun _ _ => Err ErrHTTPRequestFailed) emptyFieldsTx) =
    append (ruleReasons emptyFieldsTx)
      "AI analysis unavailable — escalated to HIGH for manual review" /\
  AITriggered (CalculateRisk (fun _ _ => Err ErrHTTPRequestFailed) emptyFieldsTx) = true /\
  AIConfidence (CalculateRisk (fun _ _ => Err ErrHTTPRequestFailed) emptyFieldsTx) = 0%float /\
  AIFraudProbability (CalculateRisk (fun _ _ => Err ErrHTTPRequestFailed) emptyFieldsTx)
    = 0%float /\
  AIRecommendation (CalculateRisk (fun _ _ => Err ErrHTTPRequestFailed) emptyFieldsTx) = "" /\
  AISummary (CalculateRisk (fun _ _ => Err ErrHTTPRequestFailed) emptyFieldsTx) = "".
Proof.
  apply (fail_safe_on_advisory_error (fun _ _ => Err ErrHTTPRequestFailed)
           emptyFieldsTx ErrHTTPRequestFailed).
  - vm_compute. discriminate.
  - reflexivity.
Defined.

(** C3: the gate boundary. The advisory client is called, and
    [AITriggered] is true, exactly when the rule score is at least 40;
    at a score of 39 the gate skips the call and at 40 it makes it. *)
Theorem advisory_gate_boundary (analyze : TransactionData -> Z -> result AIResult)
    (tx : TransactionData) :
  (AITriggered (CalculateRisk analyze tx) = true <-> 40 <= ruleScore tx) /\
  (consulted analyze tx = true <-> 40 <= ruleScore tx) /\
  (forall lvl rs,
     Locals.aiTriggered (fst (aiGate analyze tx 39 lvl rs)) = false /\
     snd (aiGate analyze tx 39 lvl rs) = [LogGateSkipping 39 (TransactionID tx)]) /\
  (forall lvl rs,
     Locals.aiTriggered (fst (aiGate analyze tx 40 lvl rs)) = true /\
     In (CallAnalyzeTransaction tx 40) (snd (aiGate analyze tx 40 lvl rs))).
Proof.
  split; [apply triggered_iff |].
  split; [apply consulted_iff |].
  split; intros lvl rs.
  - rewrite aiGate_skip by lia. split; reflexivity.
  - destruct (analyze tx 40) as [answer | err] eqn:Hcall.
    + rewrite (aiGate_answer _ _ _ _ _ answer (Z.le_refl 40) Hcall). simpl. auto.
    + rewrite (aiGate_error _ _ _ _ _ err (Z.le_refl 40) Hcall). simpl. auto.
Qed.

(** C9: whenever the advisory client is called the rule-based level is
    MEDIUM or HIGH, so an opinion REVIEW leaves the level as the rules
    set it: the LOW to MEDIUM upgrade is never taken. *)
Theorem review_never_changes_level (analyze : TransactionData -> Z -> result AIResult)
    (tx : TransactionData) :
  consulted analyze tx = true ->
  levelOf (ruleScore tx) <> LOW /\
  (forall answer,
     analyze tx (ruleScore tx) = Ok answer ->
     RecommendedAction answer = "REVIEW" ->
     Level (CalculateRisk analyze tx) = levelOf (ruleScore tx)).
Proof.
  intros Hcalled. apply consulted_iff in Hcalled.
  pose proof (levelOf_gate _ Hcalled) as Hlevel.
  split; [exact Hlevel |].
  intros answer Hcall Hreview.
  rewrite CalculateRisk_fields; cbv zeta; simpl Level.
  rewrite (aiGate_answer _ _ _ _ _ answer Hcalled Hcall). simpl.
  unfold applyRecommendation. rewrite Hreview. simpl.
  destruct (levelOf (ruleScore tx)); [contradiction | reflexivity | reflexivity].
Qed.

Lemma review_never_changes_level_witness :
  levelOf (ruleScore reviewTx) <> LOW /\
  (forall answer,
     (fun _ _ => Ok reviewAnswer) reviewTx (ruleScore reviewTx) = Ok answer ->
     RecommendedAction answer = "REVIEW" ->
     Level (CalculateRisk (fun _ _ => Ok reviewAnswer) reviewTx)
       = levelOf (ruleScore reviewTx)).
Proof.
  apply (review_never_changes_level (fun _ _ => Ok reviewAnswer) reviewTx).
  vm_compute. reflexivity.
Defined.

(** C10: the score of the verdict is the rule-based score; no answer of
    the advisory client, opinion or error, changes it. *)
Theorem score_untouched_by_advisory
    (analyze analyze' : TransactionData -> Z -> result AIResult) (tx : TransactionData) :
  Score (CalculateRisk analyze tx) = ruleScore tx /\
  Score (CalculateRisk analyze tx) = Score (CalculateRisk analyze' tx).
Proof.
  rewrite !CalculateRisk_fields; cbv zeta; simpl Score. split; reflexivity.
Qed.

(** ** The rule scorer *)

Ltac rule_cases tx :=
  unfold ruleScore, ruleReasons, specScore, specAmountRisk, onlyMissingFields,
    ruleEngine, amountRule, currencyRule, missingRule;
  destruct (500000 <? Amount tx)%float;
  destruct (100000 <? Amount tx)%float;
  destruct (50000 <? Amount tx)%float;
  destruct (String.eqb (Currency tx) "NGN");
  destruct (String.eqb (DeviceID tx) "");
  destruct (String.eqb (IPAddress tx) "");
  destruct (String.eqb (Location tx) "").

Lemma ruleScore_range (tx : TransactionData) : 0 <= ruleScore tx <= 100.
Proof. rule_cases tx; vm_compute; split; discriminate. Qed.

Lemma levelOf_thresholds (finalScore : Z) :
  (levelOf finalScore = HIGH <-> 70 <= finalScore) /\
  (levelOf finalScore = MEDIUM <-> 40 <= finalScore < 70) /\
  (levelOf finalScore = LOW <-> finalScore < 40).
Proof.
  unfold levelOf.
  destruct (Z.leb_spec 70 finalScore); [| destruct (Z.leb_spec 40 finalScore)];
    repeat split; intros; try discriminate; try lia.
Qed.

Lemma ruleScore_emptyFields (userID transactionID : string) :
  ruleScore (emptyFields userID transactionID) = 44.
Proof. vm_compute. reflexivity. Qed.

(** Where the 44 comes from: 0.15 is 5404319552844595 * 2^-55, three
    of them make 16212958658533785 * 2^-55, a tie between two binary64
    values that is rounded to the even one, one unit below the binary64
    0.45; times 100 this is one unit below 45. *)
Example binary64_three_times_015 :
  Prim2SF 0.15%float = S754_finite false 5404319552844595 (-55) /\
  Prim2SF (0.15 + 0.15 + 0.15)%float = S754_finite false 8106479329266892 (-54) /\
  Prim2SF 0.45%float = S754_finite false 8106479329266893 (-54) /\
  Prim2SF ((0.15 + 0.15 + 0.15) * 100)%float = S754_finite false 6333186975989759 (-47) /\
  Prim2SF 45%float = S754_finite false 6333186975989760 (-47).
Proof. repeat split; vm_compute; reflexivity. Qed.

(** The scenario amount 250000 in USD with every field present: 21 + 20
    gives 41, MEDIUM, and an opinion REVIEW adds its reason only. *)
Example review_scenario :
  CalculateRisk (fun _ _ => Ok reviewAnswer) reviewTx =
    {| Score := 41; Level := MEDIUM;
       Reasons := ["High transaction amount (>100k)";
                   "Foreign currency transaction (USD)";
                   "AI recommends REVIEW: Foreign currency with a high amount"];
       AITriggered := true;
       AIConfidence := 0.7%float;
       AISummary := "Foreign currency with a high amount";
       AIRecommendation := "REVIEW";
       AIFraudProbability := 0.4%float |}.
Proof. vm_compute. reflexivity. Qed.

(** C4: the score against the formula floor (100 * sum of risk * weight)
    taken in exact arithmetic. The two agree on every transaction but
    those where no amount tier matches, the currency is the home one and
    device, IP address and location are all empty: there the formula
    gives 45 and [CalculateRisk] computes 44, the binary64 sum
    0.15 + 0.15 + 0.15 being below 0.45. *)
Theorem rule_score_against_formula (tx : TransactionData) :
  (if onlyMissingFields tx
   then ruleScore tx = 44 /\ specScore tx = 45
   else ruleScore tx = specScore tx) /\
  ruleScore emptyFieldsTx = 44 /\ specScore emptyFieldsTx = 45.
Proof.
  split; [| split; vm_compute; reflexivity].
  rule_cases tx; simpl; try split; vm_compute; reflexivity.
Qed.

(** C5: the rule score lies between 0 and 100 and the level before the
    gate follows the thresholds 70 and 40; the scorer is a total
    function, every record has its score and reasons. *)
Theorem score_bounds_and_levels (tx : TransactionData) :
  (0 <=? Amount tx)%float = true ->
  (exists finalScore reasons, ruleEngine tx = (finalScore, reasons)) /\
  0 <= ruleScore tx <= 100 /\
  (levelOf (ruleScore tx) = HIGH <-> 70 <= ruleScore tx) /\
  (levelOf (ruleScore tx) = MEDIUM <-> 40 <= ruleScore tx < 70) /\
  (levelOf (ruleScore tx) = LOW <-> ruleScore tx < 40).
Proof.
  intros _.
  split; [destruct (ruleEngine tx) as [finalScore rs]; eauto |].
  split; [apply ruleScore_range | apply levelOf_thresholds].
Qed.

Lemma score_bounds_and_levels_witness :
  (exists finalScore reasons, ruleEngine reviewTx = (finalScore, reasons)) /\
  0 <= ruleScore reviewTx <= 100 /\
  (levelOf (ruleScore reviewTx) = HIGH <-> 70 <= ruleScore reviewTx) /\
  (levelOf (ruleScore reviewTx) = MEDIUM <-> 40 <= ruleScore reviewTx < 70) /\
  (levelOf (ruleScore reviewTx) = LOW <-> ruleScore reviewTx < 40).
Proof.
  apply (score_bounds_and_levels reviewTx). vm_compute. reflexivity.
Defined.

(** C6: the empty-fields scenario (amount 0, home currency, no device,
    IP address or location). [CalculateRisk] scores it 44, not the 45
    of the exact sum; the level is MEDIUM and the advisory client is
    called. *)
Theorem empty_fields_scenario (analyze : TransactionData -> Z -> result AIResult)
    (userID transactionID : string) :
  ruleScore (emptyFields userID transactionID) = 44 /\
  Score (CalculateRisk analyze (emptyFields userID transactionID)) = 44 /\
  specScore (emptyFields userID transactionID) = 45 /\
  levelOf (ruleScore (emptyFields userID transactionID)) = MEDIUM /\
  AITriggered (CalculateRisk analyze (emptyFields userID transactionID)) = true /\
  consulted analyze (emptyFields userID transactionID) = true.
Proof.
  pose proof (ruleScore_emptyFields userID transactionID) as Hscore.
  split; [exact Hscore |].
  split; [rewrite CalculateRisk_fields; exact Hscore |].
  split; [vm_compute; reflexivity |].
  split; [rewrite Hscore; reflexivity |].
  split; [apply triggered_iff | apply consulted_iff]; rewrite Hscore; lia.
Qed.

(** ** The advisory client *)

Lemma validAction_spec (action : string) :
  validAction action = true <->
  action = "APPROVE" \/ action = "REVIEW" \/ action = "BLOCK".
Proof.
  unfold validAction. rewrite !orb_true_iff, !String.eqb_eq. tauto.
Qed.

Lemma AnalyzeTransaction_checked (w : World) (tx : TransactionData) (baselineScore : Z)
    (answer : AIResult) :
  AnalyzeTransaction w tx baselineScore = Ok answer ->
  parseOpinion w tx baselineScore = Ok answer /\
  validAction (RecommendedAction answer) = true.
Proof.
  unfold AnalyzeTransaction, andThen, checkAction.
  destruct (parseOpinion w tx baselineScore) as [parsed | err]; [| discriminate].
  destruct (validAction (RecommendedAction parsed)) eqn:Hvalid; [| discriminate].
  intros Hok. injection Hok as <-. split; [reflexivity | exact Hvalid].
Qed.

Lemma AnalyzeTransaction_no_key (w : World) (tx : TransactionData) (baselineScore : Z) :
  Getenv (environ w) "GROQ_API_KEY" = "" ->
  AnalyzeTransaction w tx baselineScore = Err ErrAPIKeyNotSet.
Proof.
  intros Hkey. unfold AnalyzeTransaction, parseOpinion. rewrite Hkey. reflexivity.
Qed.

(** A provider that cannot be reached: [client.Do] returns an error. *)
Example transport_failure_escalates :
  let unreachable :=
    {| environ := {[ "GROQ_API_KEY" := "gsk_test" ]};
       Marshal := fun _ => Some "request";
       NewRequest := fun method url body =>
         Some {| Method := method; URL := url; Body := body; Header := ∅ |};
       Do := fun _ _ => None;
       Decode := fun _ => None;
       TrimSpace := fun s => s;
       Unmarshal := fun _ => None |} in
  AnalyzeTransaction unreachable reviewTx 41 = Err ErrHTTPRequestFailed /\
  Level (CalculateRisk (AnalyzeTransaction unreachable) reviewTx) = HIGH.
Proof. split; vm_compute; reflexivity. Qed.

(** C7, as the client has it: of the three domains of an opinion only
    the action is checked. An unmarshalled opinion whose action is none
    of APPROVE, REVIEW, BLOCK makes the call fail, and an opinion that is
    returned always carries one of the three; an opinion with such an
    action is returned as it was parsed, whatever its fraud probability
    and confidence. *)
Theorem only_action_is_validated (w : World) (tx : TransactionData) (baselineScore : Z)
    (parsed : AIResult) :
  parseOpinion w tx baselineScore = Ok parsed ->
  AnalyzeTransaction w tx baselineScore =
    (if validAction (RecommendedAction parsed)
     then Ok parsed
     else Err (ErrUnexpectedAction (RecommendedAction parsed))) /\
  (forall answer,
     AnalyzeTransaction w tx baselineScore = Ok answer ->
     answer = parsed /\
     (RecommendedAction answer = "APPROVE" \/ RecommendedAction answer = "REVIEW"
      \/ RecommendedAction answer = "BLOCK")).
Proof.
  intros Hparsed. split.
  - unfold AnalyzeTransaction. rewrite Hparsed. reflexivity.
  - intros answer Hok.
    apply AnalyzeTransaction_checked in Hok as [Hsame Hvalid].
    split; [congruence | apply validAction_spec, Hvalid].
Qed.

Lemma only_action_is_validated_witness :
  AnalyzeTransaction (replyingWorld {[ "GROQ_API_KEY" := "gsk_test" ]} outOfRangeAnswer)
      reviewTx 41 =
    (if validAction (RecommendedAction outOfRangeAnswer)
     then Ok outOfRangeAnswer
     else Err (ErrUnexpectedAction (RecommendedAction outOfRangeAnswer))) /\
  (forall answer,
     AnalyzeTransaction (replyingWorld {[ "GROQ_API_KEY" := "gsk_test" ]} outOfRangeAnswer)
       reviewTx 41 = Ok answer ->
     answer = outOfRangeAnswer /\
     (RecommendedAction answer = "APPROVE" \/ RecommendedAction answer = "REVIEW"
      \/ RecommendedAction answer = "BLOCK")).
Proof.
  apply (only_action_is_validated
           (replyingWorld {[ "GROQ_API_KEY" := "gsk_test" ]} outOfRangeAnswer)
           reviewTx 41 outOfRangeAnswer).
  vm_compute. reflexivity.
Defined.

(** C7 as stated fails: a reply whose fraud probability is 1.5 and whose
    confidence is 2, both outside [0,1], is returned as a valid
    opinion. *)
Lemma out_of_range_opinion_accepted :
  AnalyzeTransaction (replyingWorld {[ "GROQ_API_KEY" := "gsk_test" ]} outOfRangeAnswer)
    reviewTx 41 = Ok outOfRangeAnswer /\
  specValidOpinion outOfRangeAnswer = false /\
  (1 <? FraudProbability outOfRangeAnswer)%float = true /\
  (1 <? Confidence outOfRangeAnswer)%float = true.
Proof. repeat split; vm_compute; reflexivity. Qed.

(** ** Start-up and the credential *)

Lemma main_listens (env : gmap string string) (dotenv : option (gmap string string)) :
  exists addr, main env dotenv = Listening (fst (godotenvLoad env dotenv)) addr.
Proof.
  unfold main. destruct (godotenvLoad env dotenv) as [env' err]. simpl.
  eexists. reflexivity.
Qed.

Lemma main_fixed_port_fatal (env : gmap string string)
    (dotenv : option (gmap string string)) :
  main_fixed_port env dotenv = Fatal <-> dotenv = None.
Proof.
  unfold main_fixed_port, godotenvLoad.
  destruct dotenv as [envMap |]; split; intros H; try discriminate; reflexivity.
Qed.

(** C8, as the code has it: the advisory credential is looked up by
    each call of the client, not at start-up. With GROQ_API_KEY unset or
    empty once the .env file is loaded, [main] still reaches its
    listening state; every call of the client then fails on the
    credential before anything is sent, an evaluation whose rule score
    opens the gate ends in the fail-safe HIGH verdict, and one whose
    score stays below 40 never looks the credential up. *)
Theorem missing_credential_is_per_request (env : gmap string string)
    (dotenv : option (gmap string string)) (w : World) (tx : TransactionData) :
  environ w = fst (godotenvLoad env dotenv) ->
  Getenv (environ w) "GROQ_API_KEY" = "" ->
  (exists addr, main env dotenv = Listening (environ w) addr) /\
  (main_fixed_port env dotenv = Fatal <-> dotenv = None) /\
  (forall baselineScore, AnalyzeTransaction w tx baselineScore = Err ErrAPIKeyNotSet) /\
  (if 40 <=? ruleScore tx
   then Level (CalculateRisk (AnalyzeTransaction w) tx) = HIGH /\
        AITriggered (CalculateRisk (AnalyzeTransaction w) tx) = true
   else Level (CalculateRisk (AnalyzeTransaction w) tx) = levelOf (ruleScore tx) /\
        consulted (AnalyzeTransaction w) tx = false).
Proof.
  intros Henv Hkey.
  split; [rewrite Henv; apply main_listens |].
  split; [apply main_fixed_port_fatal |].
  split; [intros baselineScore; apply AnalyzeTransaction_no_key, Hkey |].
  destruct (Z.leb_spec 40 (ruleScore tx)) as [Hge | Hlt].
  - pose proof (AnalyzeTransaction_no_key w tx (ruleScore tx) Hkey) as Herr.
    pose proof (fail_safe_gate (AnalyzeTransaction w) tx ErrAPIKeyNotSet Hge Herr) as Hsafe.
    tauto.
  - split.
    + rewrite CalculateRisk_fields; cbv zeta; simpl Level.
      rewrite aiGate_skip by exact Hlt. reflexivity.
    + destruct (consulted (AnalyzeTransaction w) tx) eqn:Hcalled; [| reflexivity].
      apply consulted_iff in Hcalled. lia.
Qed.

Lemma missing_credential_is_per_request_witness :
  (exists addr,
     main ∅ (Some portOnly)
       = Listening (environ (replyingWorld portOnly reviewAnswer)) addr) /\
  (main_fixed_port ∅ (Some portOnly) = Fatal
     <-> Some portOnly = None) /\
  (forall baselineScore,
     AnalyzeTransaction (replyingWorld portOnly reviewAnswer)
       emptyFieldsTx baselineScore = Err ErrAPIKeyNotSet) /\
  (if 40 <=? ruleScore emptyFieldsTx
   then Level (CalculateRisk
                  (AnalyzeTransaction (replyingWorld portOnly reviewAnswer))
                  emptyFieldsTx) = HIGH /\
        AITriggered (CalculateRisk
                  (AnalyzeTransaction (replyingWorld portOnly reviewAnswer))
                  emptyFieldsTx) = true
   else Level (CalculateRisk
                  (AnalyzeTransaction (replyingWorld portOnly reviewAnswer))
                  emptyFieldsTx) = levelOf (ruleScore emptyFieldsTx) /\
        consulted (AnalyzeTransaction (replyingWorld portOnly reviewAnswer))
                  emptyFieldsTx = false).
Proof.
  apply (missing_credential_is_per_request ∅ (Some portOnly)
           (replyingWorld portOnly reviewAnswer) emptyFieldsTx).
  - vm_compute. reflexivity.
  - vm_compute. reflexivity.
Defined.

(** C8 as stated fails: with no GROQ_API_KEY anywhere, [main] starts
    and listens on :8080, and the missing credential shows only when a
    transaction is evaluated: the client returns its credential error and
    the verdict is escalated to HIGH. *)
Lemma missing_credential_starts_anyway :
  main ∅ None = Listening ∅ ":8080" /\
  Getenv ∅ "GROQ_API_KEY" = "" /\
  AnalyzeTransaction (replyingWorld ∅ reviewAnswer) emptyFieldsTx 44
    = Err ErrAPIKeyNotSet /\
  levelOf (ruleScore emptyFieldsTx) = MEDIUM /\
  Level (CalculateRisk (AnalyzeTransaction (replyingWorld ∅ reviewAnswer)) emptyFieldsTx)
    = HIGH.
Proof. repeat split; vm_compute; reflexivity. Qed.

(** * Further properties *)

(** ** The rule scorer as a function of the rule outcomes *)

Lemma ruleScore_scoreOf (tx : TransactionData) :
  ruleScore tx =
    scoreOf (amountTier tx) (negb (String.eqb (Currency tx) "NGN"))
      (String.eqb (DeviceID tx) "") (String.eqb (IPAddress tx) "")
      (String.eqb (Location tx) "").
Proof.
  unfold amountTier. rule_cases tx; reflexivity.
Qed.

Lemma amountTier_le_3 (tx : TransactionData) : (amountTier tx <= 3)%nat.
Proof.
  unfold amountTier.
  destruct (500000 <? Amount tx)%float; [lia |].
  destruct (100000 <? Amount tx)%float; [lia |].
  destruct (50000 <? Amount tx)%float; lia.
Qed.

Lemma scoreOf_tier_mono (t t' : nat) (c d i l : bool) :
  (t <= t')%nat -> (t' <= 3)%nat -> scoreOf t c d i l <= scoreOf t' c d i l.
Proof.
  intros Hle Hmax.
  destruct t' as [| [| [| [| t']]]]; try lia;
    destruct t as [| [| [| [| t]]]]; try lia;
    destruct c, d, i, l; vm_compute; discriminate.
Qed.

Lemma scoreOf_flags_mono (t : nat) (c d i l c' d' i' l' : bool) :
  (t <= 3)%nat ->
  implb c c' = true -> implb d d' = true -> implb i i' = true -> implb l l' = true ->
  scoreOf t c d i l <= scoreOf t c' d' i' l'.
Proof.
  intros Hmax Hc Hd Hi Hl.
  destruct t as [| [| [| [| t]]]]; try lia;
    destruct c, c'; try discriminate Hc;
    destruct d, d'; try discriminate Hd;
    destruct i, i'; try discriminate Hi;
    destruct l, l'; try discriminate Hl;
    vm_compute; discriminate.
Qed.

Lemma eqb_implb (a b : string) :
  (a = "" -> b = "") -> implb (String.eqb a "") (String.eqb b "") = true.
Proof.
  intros H. destruct (String.eqb_spec a "") as [Ha | Ha]; [| reflexivity].
  rewrite (H Ha). reflexivity.
Qed.

(** X1: a record that is at least as risky on every rule (no lower
    amount tier, foreign currency if the other is, each optional field
    missing if it is in the other) never gets a lower rule score. *)
Theorem riskier_record_scores_no_lower (tx tx' : TransactionData) :
  (amountTier tx <= amountTier tx')%nat ->
  (Currency tx' = "NGN" -> Currency tx = "NGN") ->
  (DeviceID tx = "" -> DeviceID tx' = "") ->
  (IPAddress tx = "" -> IPAddress tx' = "") ->
  (Location tx = "" -> Location tx' = "") ->
  ruleScore tx <= ruleScore tx'.
Proof.
  intros Htier Hcur Hdev Hip Hloc.
  rewrite !ruleScore_scoreOf.
  eapply Z.le_trans.
  - apply (scoreOf_tier_mono _ (amountTier tx')); [exact Htier | apply amountTier_le_3].
  - apply scoreOf_flags_mono; [apply amountTier_le_3 | | | |];
      try (apply eqb_implb; assumption).
    destruct (String.eqb_spec (Currency tx') "NGN") as [Hhome | Hforeign];
      [rewrite (Hcur Hhome); reflexivity |].
    destruct (String.eqb (Currency tx) "NGN"); reflexivity.
Qed.

Lemma riskier_record_scores_no_lower_witness :
  ruleScore reviewTx <= ruleScore largeAnonymousTx.
Proof.
  apply (riskier_record_scores_no_lower reviewTx largeAnonymousTx).
  - vm_compute. lia.
  - simpl. discriminate.
  - simpl. discriminate.
  - simpl. discriminate.
  - simpl. discriminate.
Defined.

Lemma scoreOf_complete_home (t : nat) : scoreOf t false false false false <= 35.
Proof.
  destruct t as [| [| [| [| t]]]]; vm_compute; discriminate.
Qed.

(** X2: a record in the home currency that carries a device, an IP
    address and a location scores at most 35 whatever its amount, so its
    level is LOW, the advisory client is not called and the verdict is
    the rule-based one. *)
Theorem complete_home_record_stays_low (analyze : TransactionData -> Z -> result AIResult)
    (tx : TransactionData) :
  Currency tx = "NGN" ->
  DeviceID tx <> "" -> IPAddress tx <> "" -> Location tx <> "" ->
  ruleScore tx <= 35 /\
  Level (CalculateRisk analyze tx) = LOW /\
  AITriggered (CalculateRisk analyze tx) = false /\
  consulted analyze tx = false /\
  Reasons (CalculateRisk analyze tx) = ruleReasons tx /\
  (length (ruleReasons tx) <= 1)%nat.
Proof.
  intros Hcur Hdev Hip Hloc.
  assert (Hscore : ruleScore tx <= 35).
  { rewrite ruleScore_scoreOf, Hcur.
    apply String.eqb_neq in Hdev, Hip, Hloc. rewrite Hdev, Hip, Hloc.
    apply scoreOf_complete_home. }
  split; [exact Hscore |].
  rewrite CalculateRisk_fields; cbv zeta. simpl Level; simpl AITriggered; simpl Reasons.
  rewrite aiGate_skip by lia. simpl.
  split; [unfold levelOf;
          destruct (Z.leb_spec 70 (ruleScore tx)); [lia |];
          destruct (Z.leb_spec 40 (ruleScore tx)); [lia | reflexivity] |].
  split; [reflexivity |].
  split; [destruct (consulted analyze tx) eqn:Hcalled; [| reflexivity];
          apply consulted_iff in Hcalled; lia |].
  split; [reflexivity |].
  apply String.eqb_neq in Hdev, Hip, Hloc.
  unfold ruleReasons, ruleEngine, amountRule, currencyRule, missingRule.
  rewrite Hcur, Hdev, Hip, Hloc. simpl.
  destruct (500000 <? Amount tx)%float; [simpl; lia |].
  destruct (100000 <? Amount tx)%float; [simpl; lia |].
  destruct (50000 <? Amount tx)%float; simpl; lia.
Qed.

Lemma complete_home_record_stays_low_witness :
  ruleScore largeHomeTx <= 35 /\
  Level (CalculateRisk (fun _ _ => Ok blockAnswer) largeHomeTx) = LOW /\
  AITriggered (CalculateRisk (fun _ _ => Ok blockAnswer) largeHomeTx) = false /\
  consulted (fun _ _ => Ok blockAnswer) largeHomeTx = false /\
  Reasons (CalculateRisk (fun _ _ => Ok blockAnswer) largeHomeTx)
    = ruleReasons largeHomeTx /\
  (length (ruleReasons largeHomeTx) <= 1)%nat.
Proof.
  apply (complete_home_record_stays_low (fun _ _ => Ok blockAnswer) largeHomeTx).
  - reflexivity.
  - simpl. discriminate.
  - simpl. discriminate.
  - simpl. discriminate.
Defined.

(** X3: the rule reasons account for the score. There is one reason
    per rule that holds, in rule order, so at most five; and the score is
    0 exactly when there is no reason. *)
Theorem reasons_account_for_score (tx : TransactionData) :
  length (ruleReasons tx) = ruleCount tx /\
  (length (ruleReasons tx) <= 5)%nat /\
  (ruleScore tx = 0 <-> ruleReasons tx = []).
Proof.
  unfold ruleCount, amountTier.
  rule_cases tx; (split; [reflexivity |]); (split; [simpl; lia |]);
    split; intros H; solve [reflexivity | discriminate H | vm_compute in H; discriminate H].
Qed.

(** ** The gate *)

(** X4: the gate only appends. The reasons of the verdict are the rule
    reasons followed by at most one more, whatever the client
    answers. *)
Theorem gate_appends_at_most_one_reason
    (analyze : TransactionData -> Z -> result AIResult) (tx : TransactionData) :
  exists added,
    Reasons (CalculateRisk analyze tx) = (ruleReasons tx ++ added)%list /\
    (length added <= 1)%nat.
Proof.
  rewrite CalculateRisk_fields; cbv zeta; simpl Reasons.
  destruct (Z.lt_ge_cases (ruleScore tx) 40) as [Hlt | Hge].
  - rewrite aiGate_skip by exact Hlt. simpl.
    exists []. rewrite app_nil_r. split; [reflexivity | simpl; lia].
  - destruct (analyze tx (ruleScore tx)) as [answer | err] eqn:Hcall.
    + rewrite (aiGate_answer _ _ _ _ _ answer Hge Hcall). simpl.
      unfold applyRecommendation, append.
      destruct (String.eqb (RecommendedAction answer) "BLOCK");
        [eexists; split; [reflexivity | simpl; lia] |].
      destruct (String.eqb (RecommendedAction answer) "REVIEW");
        [eexists; split; [reflexivity | simpl; lia] |].
      destruct (String.eqb (RecommendedAction answer) "APPROVE");
        [eexists; split; [reflexivity | simpl; lia] |].
      exists []. rewrite app_nil_r. split; [reflexivity | simpl; lia].
    + rewrite (aiGate_error _ _ _ _ _ err Hge Hcall). simpl.
      eexists; split; [reflexivity | simpl; lia].
Qed.

(** X5: no retry. An evaluation calls the advisory client once, with
    the record itself and the rule score, when that score is at least
    40, and not at all otherwise. *)
Theorem client_called_once_with_rule_score
    (analyze : TransactionData -> Z -> result AIResult) (tx : TransactionData) :
  calls (snd (CalculateRiskTraced analyze tx)) =
    if 40 <=? ruleScore tx then [(tx, ruleScore tx)] else [].
Proof.
  rewrite CalculateRisk_trace.
  destruct (Z.leb_spec 40 (ruleScore tx)) as [Hge | Hlt].
  - destruct (analyze tx (ruleScore tx)) as [answer | err] eqn:Hcall.
    + rewrite (aiGate_answer _ _ _ _ _ answer Hge Hcall). reflexivity.
    + rewrite (aiGate_error _ _ _ _ _ err Hge Hcall). reflexivity.
  - rewrite aiGate_skip by exact Hlt. reflexivity.
Qed.

(** X6: below the gate the client does not matter. With a rule score
    under 40 the verdict and the trace are the same for any two clients:
    the rule level and reasons, [AITriggered] false, the advisory fields
    at their zero values, and the one log line of the skip. *)
Theorem below_gate_client_is_irrelevant
    (analyze analyze' : TransactionData -> Z -> result AIResult) (tx : TransactionData) :
  ruleScore tx < 40 ->
  CalculateRiskTraced analyze tx = CalculateRiskTraced analyze' tx /\
  CalculateRiskTraced analyze tx =
    ({| Score := ruleScore tx; Level := levelOf (ruleScore tx);
        Reasons := ruleReasons tx; AITriggered := false;
        AIConfidence := 0%float; AISummary := "";
        AIRecommendation := ""; AIFraudProbability := 0%float |},
     [LogGateSkipping (ruleScore tx) (TransactionID tx)]).
Proof.
  intros Hlt.
  assert (Hboth : forall a,
    CalculateRiskTraced a tx =
      ({| Score := ruleScore tx; Level := levelOf (ruleScore tx);
          Reasons := ruleReasons tx; AITriggered := false;
          AIConfidence := 0%float; AISummary := "";
          AIRecommendation := ""; AIFraudProbability := 0%float |},
       [LogGateSkipping (ruleScore tx) (TransactionID tx)])).
  { intros a. revert Hlt. unfold CalculateRiskTraced, ruleScore, ruleReasons.
    destruct (ruleEngine tx) as [finalScore rs]; simpl. intros Hlt.
    rewrite aiGate_skip by exact Hlt. reflexivity. }
  split; [rewrite (Hboth analyze), (Hboth analyze'); reflexivity | apply Hboth].
Qed.

Lemma below_gate_client_is_irrelevant_witness :
  CalculateRiskTraced (fun _ _ => Ok blockAnswer) largeHomeTx
    = CalculateRiskTraced (fun _ _ => Err ErrNoChoices) largeHomeTx /\
  CalculateRiskTraced (fun _ _ => Ok blockAnswer) largeHomeTx =
    ({| Score := ruleScore largeHomeTx; Level := levelOf (ruleScore largeHomeTx);
        Reasons := ruleReasons largeHomeTx; AITriggered := false;
        AIConfidence := 0%float; AISummary := "";
        AIRecommendation := ""; AIFraudProbability := 0%float |},
     [LogGateSkipping (ruleScore largeHomeTx) (TransactionID largeHomeTx)]).
Proof.
  apply (below_gate_client_is_irrelevant (fun _ _ => Ok blockAnswer)
           (fun _ _ => Err ErrNoChoices) largeHomeTx).
  vm_compute. reflexivity.
Defined.

(** X7: what an opinion can do. When the client answers with an
    opinion, the level of the verdict is HIGH if the opinion says BLOCK
    and the rule-based level otherwise, and the four advisory fields of
    the verdict are the opinion's, unchanged. *)
Theorem opinion_changes_level_only_on_block
    (analyze : TransactionData -> Z -> result AIResult) (tx : TransactionData)
    (answer : AIResult) :
  40 <= ruleScore tx ->
  analyze tx (ruleScore tx) = Ok answer ->
  Level (CalculateRisk analyze tx) =
    (if String.eqb (RecommendedAction answer) "BLOCK" then HIGH
     else levelOf (ruleScore tx)) /\
  AIConfidence (CalculateRisk analyze tx) = Confidence answer /\
  AISummary (CalculateRisk analyze tx) = Reasoning answer /\
  AIRecommendation (CalculateRisk analyze tx) = RecommendedAction answer /\
  AIFraudProbability (CalculateRisk analyze tx) = FraudProbability answer.
Proof.
  intros Hge Hcall.
  pose proof (levelOf_gate _ Hge) as Hlevel.
  rewrite CalculateRisk_fields; cbv zeta.
  rewrite (aiGate_answer _ _ _ _ _ answer Hge Hcall). simpl.
  split; [| repeat split].
  unfold applyRecommendation.
  destruct (String.eqb (RecommendedAction answer) "BLOCK"); [reflexivity |].
  destruct (String.eqb (RecommendedAction answer) "REVIEW");
    [simpl; destruct (levelOf (ruleScore tx)); [contradiction | reflexivity | reflexivity] |].
  destruct (String.eqb (RecommendedAction answer) "APPROVE"); reflexivity.
Qed.

Lemma opinion_changes_level_only_on_block_witness :
  Level (CalculateRisk (fun _ _ => Ok blockAnswer) reviewTx) =
    (if String.eqb (RecommendedAction blockAnswer) "BLOCK" then HIGH
     else levelOf (ruleScore reviewTx)) /\
  AIConfidence (CalculateRisk (fun _ _ => Ok blockAnswer) reviewTx)
    = Confidence blockAnswer /\
  AISummary (CalculateRisk (fun _ _ => Ok blockAnswer) reviewTx) = Reasoning blockAnswer /\
  AIRecommendation (CalculateRisk (fun _ _ => Ok blockAnswer) reviewTx)
    = RecommendedAction blockAnswer /\
  AIFraudProbability (CalculateRisk (fun _ _ => Ok blockAnswer) reviewTx)
    = FraudProbability blockAnswer.
Proof.
  apply (opinion_changes_level_only_on_block (fun _ _ => Ok blockAnswer) reviewTx
           blockAnswer).
  - vm_compute. discriminate.
  - reflexivity.
Defined.

(** X8: with the Groq client behind the gate every consultation
    leaves its mark. Whatever the outside world does, an evaluation whose
    rule score is at least 40 adds exactly one reason to the rule
    reasons, and one below 40 adds none. *)
Theorem groq_client_adds_exactly_one_reason (w : World) (tx : TransactionData) :
  length (Reasons (CalculateRisk (AnalyzeTransaction w) tx)) =
    if 40 <=? ruleScore tx
    then S (length (ruleReasons tx))
    else length (ruleReasons tx).
Proof.
  rewrite CalculateRisk_fields; cbv zeta; simpl Reasons.
  destruct (Z.leb_spec 40 (ruleScore tx)) as [Hge | Hlt].
  - destruct (AnalyzeTransaction w tx (ruleScore tx)) as [answer | err] eqn:Hcall.
    + rewrite (aiGate_answer _ _ _ _ _ answer Hge Hcall). simpl.
      apply AnalyzeTransaction_checked in Hcall as [_ Hvalid].
      apply validAction_spec in Hvalid.
      unfold applyRecommendation, append.
      destruct Hvalid as [Ha | [Ha | Ha]]; rewrite Ha; simpl;
        rewrite length_app; simpl; lia.
    + rewrite (aiGate_error _ _ _ _ _ err Hge Hcall). simpl.
      unfold append. rewrite length_app. simpl. lia.
  - rewrite aiGate_skip by exact Hlt. reflexivity.
Qed.

(** ** The advisory client, stage by stage *)

Lemma parseOpinion_exchange (w : World) (tx : TransactionData) (baselineScore : Z) :
  parseOpinion w tx baselineScore =
    try groqResp <- exchange w tx baselineScore ;
    match Error groqResp with
    | Some message => Err (ErrGroqAPI message)
    | None =>
        match Choices groqResp with
        | [] => Err ErrNoChoices
        | content :: _ =>
            orFail (Unmarshal w (stripFences w content))
                   (ErrInvalidJSON (stripFences w content))
        end
    end.
Proof.
  unfold parseOpinion, exchange.
  destruct (String.eqb (Getenv (environ w) "GROQ_API_KEY") ""); [reflexivity |].
  destruct (Marshal w _) as [jsonData |]; [| reflexivity]. simpl.
  destruct (NewRequest w _ _ jsonData) as [httpReq |]; [| reflexivity]. simpl.
  destruct (Do w 10 _) as [resp |]; [| reflexivity]. simpl.
  destruct (Decode w resp) as [groqResp |]; reflexivity.
Qed.

Lemma exchange_no_key_error (w : World) (tx : TransactionData) (baselineScore : Z) :
  exchange w tx baselineScore <> Err ErrAPIKeyNotSet \/
  Getenv (environ w) "GROQ_API_KEY" = "".
Proof.
  unfold exchange.
  destruct (String.eqb_spec (Getenv (environ w) "GROQ_API_KEY") "") as [Hkey | Hkey];
    [right; exact Hkey | left].
  destruct (Marshal w _) as [jsonData |]; [| discriminate]. simpl.
  destruct (NewRequest w _ _ jsonData) as [httpReq |]; [| discriminate]. simpl.
  destruct (Do w 10 _) as [resp |]; [| discriminate]. simpl.
  destruct (Decode w resp) as [g |]; discriminate.
Qed.

(** X9: the credential error means the credential. The client answers
    with its "GROQ_API_KEY is not set" error exactly when the variable is
    unset or empty; no failure of the request, of the provider or of the
    reply is reported under that error. *)
Theorem credential_error_iff_no_key (w : World) (tx : TransactionData) (baselineScore : Z) :
  AnalyzeTransaction w tx baselineScore = Err ErrAPIKeyNotSet <->
  Getenv (environ w) "GROQ_API_KEY" = "".
Proof.
  split; [| apply AnalyzeTransaction_no_key].
  unfold AnalyzeTransaction. rewrite parseOpinion_exchange.
  destruct (exchange_no_key_error w tx baselineScore) as [Hother | Hkey];
    [| intros _; exact Hkey].
  destruct (exchange w tx baselineScore) as [groqResp | err]; simpl;
    [| intros H; injection H as ->; exfalso; apply Hother; reflexivity].
  destruct (Error groqResp); [discriminate |].
  destruct (Choices groqResp) as [| content rest]; [discriminate |].
  destruct (Unmarshal w (stripFences w content)) as [aiResult |]; simpl; [| discriminate].
  unfold checkAction. destruct (validAction (RecommendedAction aiResult)); discriminate.
Qed.



(** ** Fence stripping *)

Lemma prefix_append (p s : string) : String.prefix p (p ++ s)%string = true.
Proof.
  induction p as [| a p IH]; simpl; [destruct s; reflexivity |].
  destruct (ascii_dec a a) as [_ | Hne]; [exact IH | congruence].
Qed.

Lemma substring_whole (s : string) : String.substring 0 (String.length s) s = s.
Proof. induction s as [| a s IH]; simpl; [reflexivity | rewrite IH; reflexivity]. Qed.

Lemma substring_after (p s : string) :
  String.substring (String.length p) (String.length s) (p ++ s)%string = s.
Proof.
  induction p as [| a p IH]; simpl; [apply substring_whole | exact IH].
Qed.

Lemma substring_before (s p : string) :
  String.substring 0 (String.length s) (s ++ p)%string = s.
Proof.
  induction s as [| a s IH]; simpl; [destruct p; reflexivity | rewrite IH; reflexivity].
Qed.

Lemma length_append (s p : string) :
  String.length (s ++ p)%string = (String.length s + String.length p)%nat.
Proof. induction s as [| a s IH]; simpl; [reflexivity | rewrite IH; reflexivity]. Qed.

Lemma TrimPrefix_present (p s : string) : TrimPrefix (p ++ s)%string p = s.
Proof.
  unfold TrimPrefix. rewrite prefix_append, length_append.
  replace (String.length p + String.length s - String.length p)%nat
    with (String.length s) by lia.
  apply substring_after.
Qed.

Lemma TrimPrefix_absent (p s : string) : String.prefix p s = false -> TrimPrefix s p = s.
Proof. intros H. unfold TrimPrefix. rewrite H. reflexivity. Qed.

Lemma TrimSuffix_present (s p : string) : TrimSuffix (s ++ p)%string p = s.
Proof.
  unfold TrimSuffix, HasSuffix. rewrite length_append.
  replace (String.length s + String.length p - String.length p)%nat
    with (String.length s) by lia.
  rewrite substring_after, String.eqb_refl, andb_true_r.
  destruct (Nat.leb_spec (String.length p) (String.length s + String.length p)) as [_ | Hlt];
    [apply substring_before | lia].
Qed.

(** X11: a fenced reply gives back what is between the fences. For a
    choice made of an opening fence (with the [json] tag or without),
    some content and a closing fence, with no white space around it, the
    stripping returns that content trimmed, provided the content is not
    itself taken for a tag or a fence. *)
Theorem fenced_reply_is_unwrapped (w : World) (tagged : bool) (inner : string) :
  TrimSpace w (fenced tagged inner) = fenced tagged inner ->
  String.prefix (if tagged then "```" else "json") (inner ++ "```")%string = false ->
  stripFences w (fenced tagged inner) = TrimSpace w inner.
Proof.
  intros Htrim Hinner. unfold stripFences. rewrite Htrim. f_equal.
  unfold fenced. destruct tagged.
  - rewrite TrimPrefix_present.
    rewrite (TrimPrefix_absent "```" _ Hinner).
    apply TrimSuffix_present.
  - rewrite (TrimPrefix_absent "```json").
    + rewrite TrimPrefix_present. apply TrimSuffix_present.
    + simpl. simpl in Hinner. exact Hinner.
Qed.

Lemma fenced_reply_is_unwrapped_witness :
  stripFences (replyingWorld ∅ reviewAnswer) (fenced true "{opinion}")
    = TrimSpace (replyingWorld ∅ reviewAnswer) "{opinion}".
Proof.
  apply (fenced_reply_is_unwrapped (replyingWorld ∅ reviewAnswer) true "{opinion}").
  - reflexivity.
  - reflexivity.
Defined.

(** ** The API key middleware *)

Lemma APIKeyAuth_cases (environ : gmap string string) (c : gin.Context) :
  middleware.APIKeyAuth environ c =
    if String.eqb (gin.GetHeader c "x-api-key") ""
       || negb (String.eqb (gin.GetHeader c "x-api-key")
                           (Getenv environ "ASGUARD_API_KEY"))
    then gin.Respond unauthorised
    else gin.Next.
Proof.
  unfold middleware.APIKeyAuth, middleware.APIKeyAuthTraced.
  destruct (_ || _); reflexivity.
Qed.

(** X12: the key check. The middleware lets a request through exactly
    when its x-api-key header is not empty and equals ASGUARD_API_KEY;
    every other request is answered 401 "unauthorised". *)
Theorem api_key_gate (environ : gmap string string) (c : gin.Context) :
  (middleware.APIKeyAuth environ c = gin.Next <->
     gin.GetHeader c "x-api-key" <> "" /\
     gin.GetHeader c "x-api-key" = Getenv environ "ASGUARD_API_KEY") /\
  (middleware.APIKeyAuth environ c = gin.Next \/
   middleware.APIKeyAuth environ c = gin.Respond unauthorised).
Proof.
  rewrite APIKeyAuth_cases.
  destruct (String.eqb_spec (gin.GetHeader c "x-api-key") "") as [Hempty | Hkey]; simpl.
  - split; [| right; reflexivity].
    split; [discriminate | intros [Hne _]; contradiction].
  - destruct (String.eqb_spec (gin.GetHeader c "x-api-key")
                (Getenv environ "ASGUARD_API_KEY")) as [Heq | Hne]; simpl.
    + split; [| left; reflexivity]. split; [intros _; split; assumption | reflexivity].
    + split; [| right; reflexivity].
      split; [discriminate | intros [_ Heq]; contradiction].
Qed.

(** X13: the middleware fails closed. When ASGUARD_API_KEY is unset or
    empty no request passes, whatever key it sends. *)
Theorem unset_server_key_rejects_every_request (environ : gmap string string)
    (c : gin.Context) :
  Getenv environ "ASGUARD_API_KEY" = "" ->
  middleware.APIKeyAuth environ c = gin.Respond unauthorised.
Proof.
  intros Hunset. rewrite APIKeyAuth_cases, Hunset.
  destruct (String.eqb (gin.GetHeader c "x-api-key") ""); reflexivity.
Qed.

Lemma unset_server_key_rejects_every_request_witness :
  middleware.APIKeyAuth ∅ (keyedContext "secret-key") = gin.Respond unauthorised.
Proof.
  apply (unset_server_key_rejects_every_request ∅ (keyedContext "secret-key")).
  reflexivity.
Defined.

(** ** The routes *)

(** X14: the health check is public. GET /health is answered 200 with
    the running status for every request, with or without a key, and
    whatever the server's key is. *)
Theorem health_needs_no_key
    (bind : gin.Context -> option routes.TransactionRequest)
    (calc : TransactionData -> RiskResult) (environ : gmap string string)
    (c : gin.Context) :
  gin.serve (routes.RegisterRoutes bind calc environ) "GET" "/health" c =
    Some {| gin.status := 200;
            gin.payload := {[ "status" := gin.JString "asguard health running" ]} |}.
Proof. reflexivity. Qed.

(** X15: the two other routes are behind the key. A request to
    POST /analyze or GET /secure-test that the middleware does not let
    through gets the 401 reply and nothing else: neither the binder nor
    the engine has any part in the answer. *)
Theorem protected_routes_reject_without_key
    (bind : gin.Context -> option routes.TransactionRequest)
    (calc : TransactionData -> RiskResult) (environ : gmap string string)
    (c : gin.Context) :
  middleware.APIKeyAuth environ c <> gin.Next ->
  gin.serve (routes.RegisterRoutes bind calc environ) "POST" "/analyze" c
    = Some unauthorised /\
  gin.serve (routes.RegisterRoutes bind calc environ) "GET" "/secure-test" c
    = Some unauthorised.
Proof.
  intros Hrejected. rewrite APIKeyAuth_cases in Hrejected.
  split; cbn; rewrite APIKeyAuth_cases;
    destruct (_ || _); solve [reflexivity | contradiction].
Qed.

Lemma protected_routes_reject_without_key_witness :
  gin.serve (routes.RegisterRoutes sampleBinder
               (CalculateRisk (fun _ _ => Ok blockAnswer)) serverEnviron)
    "POST" "/analyze" (sampleContext "wrong-key" "{}") = Some unauthorised /\
  gin.serve (routes.RegisterRoutes sampleBinder
               (CalculateRisk (fun _ _ => Ok blockAnswer)) serverEnviron)
    "GET" "/secure-test" (sampleContext "wrong-key" "{}") = Some unauthorised.
Proof.
  apply (protected_routes_reject_without_key sampleBinder
           (CalculateRisk (fun _ _ => Ok blockAnswer)) serverEnviron
           (sampleContext "wrong-key" "{}")).
  vm_compute. discriminate.
Defined.

(** ** The /analyze handler *)

Ltac lookup_payload :=
  repeat (rewrite lookup_insert_ne by done);
  first [ rewrite lookup_insert_eq
        | rewrite lookup_singleton_eq
        | rewrite lookup_singleton_ne by done ];
  reflexivity.

(** X16: what the handler answers. A body that does not bind is
    answered 400 whatever the engine would say; a bound request is
    answered 200 with its own transaction id, the score, level and
    reasons of the verdict computed on the record without a location, and
    the fixed message. *)
Theorem handler_reply (bind : gin.Context -> option routes.TransactionRequest)
    (calc : TransactionData -> RiskResult) (c : gin.Context) :
  match bind c with
  | None =>
      routes.AnalyzeTransaction bind calc c =
        gin.Respond {| gin.status := 400;
                       gin.payload := {[ "error" := gin.JString "invalid request payload" ]} |}
  | Some req =>
      exists reply,
        routes.AnalyzeTransaction bind calc c = gin.Respond reply /\
        gin.status reply = 200 /\
        Location (routes.toTransactionData req) = "" /\
        gin.payload reply !! "transaction_id"
          = Some (gin.JString (routes.TransactionID req)) /\
        gin.payload reply !! "risk_score"
          = Some (gin.JInt (Score (calc (routes.toTransactionData req)))) /\
        gin.payload reply !! "risk_level"
          = Some (gin.JString
                    (routes.levelString (Level (calc (routes.toTransactionData req))))) /\
        gin.payload reply !! "reasons"
          = Some (gin.JStrings (Reasons (calc (routes.toTransactionData req)))) /\
        gin.payload reply !! "message"
          = Some (gin.JString "Transaction received successfully") /\
        gin.payload reply !! "ai_triggered" = None /\
        gin.payload reply !! "ai_recommendation" = None
  end.
Proof.
  unfold routes.AnalyzeTransaction.
  destruct (bind c) as [req |]; [| reflexivity].
  eexists. split; [reflexivity |]. simpl.
  repeat split; lookup_payload.
Qed.

(** X17: SimID and Timestamp are required but unused. Two bound
    requests that agree on the six other fields get the same reply. *)
Theorem handler_ignores_sim_and_timestamp
    (bind : gin.Context -> option routes.TransactionRequest)
    (calc : TransactionData -> RiskResult) (c c' : gin.Context)
    (req req' : routes.TransactionRequest) :
  bind c = Some req -> bind c' = Some req' ->
  routes.UserID req = routes.UserID req' ->
  routes.TransactionID req = routes.TransactionID req' ->
  routes.Amount req = routes.Amount req' ->
  routes.Currency req = routes.Currency req' ->
  routes.IPAddress req = routes.IPAddress req' ->
  routes.DeviceID req = routes.DeviceID req' ->
  routes.AnalyzeTransaction bind calc c = routes.AnalyzeTransaction bind calc c'.
Proof.
  intros Hreq Hreq' Huser Htxn Hamount Hcur Hip Hdev.
  unfold routes.AnalyzeTransaction, routes.toTransactionData.
  rewrite Hreq, Hreq', Huser, Htxn, Hamount, Hcur, Hip, Hdev. reflexivity.
Qed.

Lemma handler_ignores_sim_and_timestamp_witness :
  routes.AnalyzeTransaction otherSimBinder (CalculateRisk (fun _ _ => Ok blockAnswer))
    (sampleContext "secret-key" "first")
  = routes.AnalyzeTransaction otherSimBinder (CalculateRisk (fun _ _ => Ok blockAnswer))
    (sampleContext "secret-key" "second").
Proof.
  apply (handler_ignores_sim_and_timestamp otherSimBinder
           (CalculateRisk (fun _ _ => Ok blockAnswer))
           (sampleContext "secret-key" "first") (sampleContext "secret-key" "second")
           sampleRequest otherSimRequest); reflexivity.
Defined.

Lemma scoreOf_missing_location (t : nat) (c d i : bool) :
  (t <= 3)%nat -> 15 <= scoreOf t c d i true.
Proof.
  intros Hmax.
  destruct t as [| [| [| [| t]]]]; try lia; destruct c, d, i; vm_compute; discriminate.
Qed.

Lemma ruleReasons_missing_location (tx : TransactionData) :
  Location tx = "" ->
  exists earlier, ruleReasons tx = (earlier ++ ["Missing location"])%list.
Proof.
  intros Hloc. unfold ruleReasons, ruleEngine. rewrite Hloc.
  destruct (amountRule tx []) as [amountRisk r1].
  destruct (currencyRule tx r1) as [currencyRisk r2].
  destruct (missingRule (DeviceID tx) "Missing device ID" r2) as [deviceRisk r3].
  destruct (missingRule (IPAddress tx) "Missing IP address" r3) as [ipRisk r4].
  exists r4. reflexivity.
Qed.

(** X18: through this handler the location rule always holds. The
    handler never sets Location, so the current engine scores every
    request at least 15, never reports a score of 0, and always lists
    the missing location as the last rule reason. *)
Theorem handler_requests_always_miss_location (req : routes.TransactionRequest) :
  15 <= ruleScore (routes.toTransactionData req) /\
  exists earlier,
    ruleReasons (routes.toTransactionData req) = (earlier ++ ["Missing location"])%list.
Proof.
  split.
  - rewrite ruleScore_scoreOf.
    change (Location (routes.toTransactionData req)) with "".
    change (String.eqb "" "") with true.
    apply scoreOf_missing_location, amountTier_le_3.
  - apply ruleReasons_missing_location. reflexivity.
Qed.

(** ** Start-up *)





(** ** The first revision of the engine *)

Ltac legacy_cases tx :=
  unfold Legacy.CalculateRisk, Legacy.CalculateRiskTraced;
  destruct (100000 <? Legacy.Amount tx)%float;
  destruct (String.eqb (Legacy.Currency tx) "NGN");
  destruct (String.eqb (Legacy.DeviceID tx) "");
  destruct (String.eqb (Legacy.IPAddress tx) "").

(** X21: the first revision scores in steps of 20. Its score is
    exactly 40 for an amount above 100000 plus 20 for each of: a currency
    other than NGN, an empty device id, an empty IP address; the binary64
    evaluation loses nothing on any of the sixteen combinations. *)
Theorem legacy_score_is_exact (tx : Legacy.TransactionData) :
  Legacy.Score (Legacy.CalculateRisk tx) =
    40 * Z.b2z (100000 <? Legacy.Amount tx)%float
    + 20 * Z.b2z (negb (String.eqb (Legacy.Currency tx) "NGN"))
    + 20 * Z.b2z (String.eqb (Legacy.DeviceID tx) "")
    + 20 * Z.b2z (String.eqb (Legacy.IPAddress tx) "").
Proof. legacy_cases tx; vm_compute; reflexivity. Qed.

(** X22: the placeholder behind the first gate. The first revision
    calls the placeholder client exactly when the score is at least 50,
    and the placeholder then always answers confidence 0.85 with its
    simulated summary after sleeping 50 ms; below 50 the two AI fields
    stay at their zero values and nothing is slept or printed. The
    placeholder's "No AI integration yet" answer never reaches a
    verdict. *)
Theorem legacy_gate_and_placeholder (tx : Legacy.TransactionData) :
  Legacy.CalculateRiskTraced tx =
    (if 50 <=? Legacy.Score (Legacy.CalculateRisk tx)
     then ({| Legacy.Score := Legacy.Score (Legacy.CalculateRisk tx);
              Legacy.Level := levelOf (Legacy.Score (Legacy.CalculateRisk tx));
              Legacy.Reasons := Legacy.Reasons (Legacy.CalculateRisk tx);
              Legacy.AIConfidence := 0.85%float;
              Legacy.AISummary :=
                "Simulated AI: anomaly detected due to high amount and foreign currency" |},
           [Legacy.Sleep 50;
            Legacy.Printf (Legacy.TransactionID tx) (Legacy.Score (Legacy.CalculateRisk tx))])
     else ({| Legacy.Score := Legacy.Score (Legacy.CalculateRisk tx);
              Legacy.Level := levelOf (Legacy.Score (Legacy.CalculateRisk tx));
              Legacy.Reasons := Legacy.Reasons (Legacy.CalculateRisk tx);
              Legacy.AIConfidence := 0%float;
              Legacy.AISummary := "" |}, [])) /\
  Legacy.AISummary (Legacy.CalculateRisk tx) <> "No AI integration yet".
Proof.
  legacy_cases tx; split; solve [vm_compute; reflexivity | vm_compute; discriminate].
Qed.

(** ** What the client sends, and the protected routes with a key *)

Lemma exchange_guarded (w : World) (tx : TransactionData) (baselineScore : Z) :
  exchange (guardedWorld w) tx baselineScore = exchange w tx baselineScore.
Proof.
  unfold exchange. simpl.
  destruct (String.eqb (Getenv (environ w) "GROQ_API_KEY") ""); [reflexivity |].
  destruct (Marshal w _) as [jsonData |]; [| reflexivity]. simpl.
  destruct (NewRequest w _ _ jsonData) as [httpReq |]; [| reflexivity]. simpl.
  rewrite lookup_insert_ne by done. rewrite lookup_insert_eq.
  rewrite lookup_insert_eq.
  rewrite !bool_decide_eq_true_2 by reflexivity. reflexivity.
Qed.

(** X23: every request carries the credential. A provider front that
    drops any request not made with the 10 second timeout, the header
    Authorization "Bearer <GROQ_API_KEY>" and the JSON content type
    changes nothing: the client's answer is the same with it as without
    it. *)
Theorem every_request_carries_the_credential (w : World) (tx : TransactionData)
    (baselineScore : Z) :
  AnalyzeTransaction (guardedWorld w) tx baselineScore
    = AnalyzeTransaction w tx baselineScore.
Proof.
  unfold AnalyzeTransaction.
  rewrite !parseOpinion_exchange, exchange_guarded. reflexivity.
Qed.

(** X24: with the key the protected routes answer. A request the
    middleware lets through gets, on GET /secure-test, the 200 reply
    "API key valid", and on POST /analyze the reply of the handler,
    which is a 200 or a 400. *)
Theorem protected_routes_answer_with_key
    (bind : gin.Context -> option routes.TransactionRequest)
    (calc : TransactionData -> RiskResult) (environ : gmap string string)
    (c : gin.Context) :
  gin.GetHeader c "x-api-key" <> "" ->
  gin.GetHeader c "x-api-key" = Getenv environ "ASGUARD_API_KEY" ->
  gin.serve (routes.RegisterRoutes bind calc environ) "GET" "/secure-test" c
    = Some {| gin.status := 200;
              gin.payload := {[ "message" := gin.JString "API key valid" ]} |} /\
  exists reply,
    routes.AnalyzeTransaction bind calc c = gin.Respond reply /\
    gin.serve (routes.RegisterRoutes bind calc environ) "POST" "/analyze" c
      = Some reply /\
    (gin.status reply = 200 \/ gin.status reply = 400).
Proof.
  intros Hkey Hmatch.
  assert (Hnext : middleware.APIKeyAuth environ c = gin.Next).
  { rewrite APIKeyAuth_cases.
    apply String.eqb_neq in Hkey. apply String.eqb_eq in Hmatch.
    rewrite Hkey, Hmatch. reflexivity. }
  split; [cbn; rewrite Hnext; reflexivity |].
  cbn. rewrite Hnext. unfold routes.AnalyzeTransaction.
  destruct (bind c) as [req |]; eexists; (split; [reflexivity |]);
    (split; [reflexivity |]); simpl; auto.
Qed.

Lemma protected_routes_answer_with_key_witness :
  gin.serve (routes.RegisterRoutes sampleBinder
               (CalculateRisk (fun _ _ => Ok blockAnswer)) serverEnviron)
    "GET" "/secure-test" (sampleContext "secret-key" "{}")
    = Some {| gin.status := 200;
              gin.payload := {[ "message" := gin.JString "API key valid" ]} |} /\
  exists reply,
    routes.AnalyzeTransaction sampleBinder (CalculateRisk (fun _ _ => Ok blockAnswer))
      (sampleContext "secret-key" "{}") = gin.Respond reply /\
    gin.serve (routes.RegisterRoutes sampleBinder
                 (CalculateRisk (fun _ _ => Ok blockAnswer)) serverEnviron)
      "POST" "/analyze" (sampleContext "secret-key" "{}") = Some reply /\
    (gin.status reply = 200 \/ gin.status reply = 400).
Proof.
  apply (protected_routes_answer_with_key sampleBinder
           (CalculateRisk (fun _ _ => Ok blockAnswer)) serverEnviron
           (sampleContext "secret-key" "{}")).
  - simpl. discriminate.
  - vm_compute. reflexivity.
Defined.
